(** * gen_results_summary: a shallow embedding of the xfstests report generator

    The development follows
    [kvm-xfstests/test-appliance/files/usr/lib/python2.7/gen_results_summary.py].
    Python values are embedded as follows:
    - [str] is [string] (a sequence of bytes, as in Python 2), [len] is
      [String.length];
    - [int] is [Z]; a [float] holding a finite value is [Q], and [%d] applied
      to it truncates toward zero;
    - [None] is [None] of an [option];
    - a [Properties] element is a mutable sequence of [Property] entries,
      so a function mutating it returns the new sequence;
    - a generator is the finite trace of what it yields, closed by how it ends;
    - file output is a log of the [write] calls, in order;
    - an exception is the [Raised] outcome of a computation. *)

From Stdlib Require Import ZArith QArith List String Ascii Bool Lia.
From Stdlib Require Import Permutation Sorted DecimalString.
Import ListNotations.

Open Scope string_scope.
Open Scope Z_scope.

(** ** Python primitives used by the module *)
Module Py.

(** [len(s)] *)
Definition len (s : string) : Z := Z.of_nat (String.length s).

(** The newline and the double quote characters. *)
Definition nl : ascii := ascii_of_nat 10.
Definition dquote : ascii := ascii_of_nat 34.
Definition NL : string := String nl EmptyString.

Fixpoint spaces (n : nat) : string :=
  match n with
  | O => EmptyString
  | S n' => String " "%char (spaces n')
  end.

(** [%-Ns]: left-justify in a field of [width] columns, never truncating. *)
Definition ljust (width : nat) (s : string) : string :=
  s ++ spaces (width - String.length s).

(** [%d] on an [int]. *)
Definition fmt_d (z : Z) : string := NilZero.string_of_int (Z.to_int z).

(** [int(x)] on a finite [float]: truncation toward zero. *)
Definition trunc (q : Q) : Z := Z.quot (Qnum q) (Z.pos (Qden q)).

(** [%d] on a [float]. *)
Definition fmt_d_float (q : Q) : string := fmt_d (trunc q).

(** [%s] on a value that may be [None]. *)
Definition fmt_s (v : option string) : string :=
  match v with
  | Some s => s
  | None => "None"
  end.

(** [s.split(sep, 1)] for the two-character separator [': ']: the text
    before the first occurrence and the text after it, or the whole string
    alone (here [None]) when the separator does not occur. *)
Fixpoint split_colon_space (s : string) : option (string * string) :=
  match s with
  | EmptyString => None
  | String c rest =>
      match c, rest with
      | ":"%char, String " "%char rest' => Some (EmptyString, rest')
      | _, _ =>
          match split_colon_space rest with
          | Some (k, v) => Some (String c k, v)
          | None => None
          end
      end
  end.

(** [s.lstrip(c)] and [s.rstrip(c)] for a single character [c]. *)
Fixpoint lstrip (c : ascii) (s : string) : string :=
  match s with
  | EmptyString => EmptyString
  | String a rest => if Ascii.eqb a c then lstrip c rest else s
  end.

Fixpoint rstrip (c : ascii) (s : string) : string :=
  match s with
  | EmptyString => EmptyString
  | String a rest =>
      match rstrip c rest with
      | EmptyString => if Ascii.eqb a c then EmptyString else String a EmptyString
      | r => String a r
      end
  end.

Definition strip (c : ascii) (s : string) : string := rstrip c (lstrip c s).

(** [sorted(l, key=...)] once the keys are computed: a stable ascending
    sort.  [insert] puts an element in front of the first one whose key
    is not smaller, and the elements are inserted from the right, so equal
    keys keep their input order. *)
Section Sorted.
Context {A K : Type} (key : A -> K) (ltb : K -> K -> bool).

Fixpoint insert (x : A) (l : list A) : list A :=
  match l with
  | [] => [x]
  | y :: l' => if ltb (key y) (key x) then y :: insert x l' else x :: l
  end.

Definition sorted (l : list A) : list A := fold_right insert [] l.
End Sorted.

End Py.

(** ** Exceptions, outcomes and the output log *)

Inductive exn : Type :=
| ValueError      (* unpacking a short split, a malformed timestamp *)
| TypeError       (* iterating or formatting [None] *)
| AttributeError  (* a method call on [None] *)
| OverflowError.  (* [time.mktime] out of range *)

Inductive outcome (A : Type) : Type :=
| Returned (a : A)
| Raised (e : exn).
Arguments Returned {A} a.
Arguments Raised {A} e.

(** What [out_f] is bound to. *)
Inductive handle : Type :=
| Stdout
| OutFile (path : string).

(** The externally visible actions of a run, in the order they happen. *)
Inductive event : Type :=
| EvOpenWrite (path : string)                 (* open(path, "w") *)
| EvWrite (h : handle) (text : string)       (* h.write(text) *)
| EvArchiveWrite (path : string) (nsuites : nat) (* combined.write(path) *)
| EvExists (path : string)                   (* os.path.exists(path) *)
| EvRename (src dst : string).               (* os.rename(src, dst) *)

(** A computation logs events and either returns or raises. *)
Definition M (A : Type) : Type := (list event * outcome A)%type.

Definition ret {A} (a : A) : M A := ([], Returned a).
Definition raise {A} (e : exn) : M A := ([], Raised e).
Definition bind {A B} (m : M A) (f : A -> M B) : M B :=
  match m with
  | (t, Returned a) => let (t', o) := f a in (app t t', o)
  | (t, Raised e) => (t, Raised e)
  end.
Definition write (h : handle) (text : string) : M unit :=
  ([EvWrite h text], Returned tt).

Notation "x <- c1 ;; c2" := (bind c1 (fun x => c2))
  (at level 61, c1 at next level, right associativity).
Notation "c1 ;; c2" := (bind c1 (fun _ => c2))
  (at level 61, right associativity).

(** The texts written, in order, whatever the handle. *)
Definition written (t : list event) : list string :=
  flat_map (fun e => match e with EvWrite _ s => [s] | _ => [] end) t.

(** ** Data model (the attributes of the junitparser objects the module reads) *)

Inductive result_kind : Type := Pass | Failure | Error | Skipped.

Definition result_kind_eqb (a b : result_kind) : bool :=
  match a, b with
  | Pass, Pass | Failure, Failure | Error, Error | Skipped, Skipped => true
  | _, _ => false
  end.

Record TestCase : Type := mkTestCase {
  tc_name : string;
  tc_result : result_kind;
  tc_time : Q
}.

Record Property : Type := mkProperty {
  name : string;
  value : string
}.

(** junitparser compares two [Property] elements by name and value. *)
Definition Property_eqb (p q : Property) : bool :=
  String.eqb (name p) (name q) && String.eqb (value p) (value q).

(** A [<properties>] element; [child(Properties)] is [None] when the record
    has none. *)
Definition Properties : Type := list Property.

(** A loaded record.  The counters are the integers of the record; [tests]
    is kept optional because [total_tests] itself provides for [None]. *)
Record TestSuite : Type := mkTestSuite {
  testcases : list TestCase;
  tests : option Z;
  skipped : Z;
  failures : Z;
  errors : Z;
  time : Q;
  timestamp : string;
  hostname : string;
  child_Properties : option Properties
}.

(** [testsuite.properties()]: iterates the entries, none when the element
    is missing. *)
Definition properties (ts : TestSuite) : option Properties :=
  match child_Properties ts with
  | Some l => Some l
  | None => Some []
  end.

(** ** Property lookup and removal *)

(** [get_property]: the value of the first entry with that name. *)
Fixpoint get_property_loop (props : Properties) (key : string) : option string :=
  match props with
  | [] => None
  | prop :: rest =>
      if String.eqb (name prop) key then Some (value prop)
      else get_property_loop rest key
  end.

Definition get_property (props : option Properties) (key : string) : option string :=
  match props with
  | None => None
  | Some l => get_property_loop l key
  end.

(** A generator run to its end: the values yielded, then a normal stop or
    the exception that ends the iteration. *)
Inductive generator (A : Type) : Type :=
| GStop
| GRaise (e : exn)
| GYield (a : A) (rest : generator A).
Arguments GStop {A}.
Arguments GRaise {A} e.
Arguments GYield {A} a rest.

Fixpoint get_properties_loop (props : Properties) (key : string)
  : generator (option string) :=
  match props with
  | [] => GStop
  | prop :: rest =>
      if String.eqb (name prop) key
      then GYield (Some (value prop)) (get_properties_loop rest key)
      else get_properties_loop rest key
  end.

(** [get_properties]: with [props is None] the generator yields [None] and
    then falls through to [for prop in props], which raises [TypeError]. *)
Definition get_properties (props : option Properties) (key : string)
  : generator (option string) :=
  match props with
  | None => GYield None (GRaise TypeError)
  | Some l => get_properties_loop l key
  end.

(** [failed_tests]: yields the test cases whose result is a [Failure], in
    suite order. *)
Fixpoint failed_tests_loop (tcs : list TestCase) : generator TestCase :=
  match tcs with
  | [] => GStop
  | testcase :: rest =>
      if result_kind_eqb (tc_result testcase) Failure
      then GYield testcase (failed_tests_loop rest)
      else failed_tests_loop rest
  end.

Definition failed_tests (testsuite : TestSuite) : generator TestCase :=
  failed_tests_loop (testcases testsuite).

(** [props.remove(prop)]: drops the first entry equal to [prop], as the
    [remove] of a Python sequence does; the later entries move down by one. *)
Fixpoint remove (prop : Property) (l : Properties) : Properties :=
  match l with
  | [] => []
  | p :: rest => if Property_eqb p prop then rest else p :: remove prop rest
  end.

(** The loop of [remove_properties].  The [for] statement keeps an index
    [i] into the live sequence: each round reads the entry at [i], may
    remove from the sequence, and moves to [i + 1]; it ends when [i] is
    past the end.  [fuel] bounds the rounds. *)
Fixpoint remove_properties_loop (fuel : nat) (key : string) (i : nat)
    (l : Properties) : Properties :=
  match fuel with
  | O => l
  | S fuel' =>
      match nth_error l i with
      | None => l
      | Some prop =>
          if String.eqb (name prop) key
          then remove_properties_loop fuel' key (S i) (remove prop l)
          else remove_properties_loop fuel' key (S i) l
      end
  end.

(** [remove_properties]: one round per index is enough, the sequence never
    grows (see [remove_properties_loop_fuel]). *)
Definition remove_properties (props : option Properties) (key : string)
  : option Properties :=
  match props with
  | None => None
  | Some l => Some (remove_properties_loop (List.length l) key 0 l)
  end.

(** ** Failure and error lists *)

(** The body of the [for] loop of [print_tests], threading [found] and
    [pos]; returns the final [found]. *)
Fixpoint print_tests_loop (out_f : handle) (tcs : list TestCase)
    (result_type : result_kind) (type_label : string)
    (found : bool) (pos : Z) : M bool :=
  match tcs with
  | [] => ret found
  | testcase :: rest =>
      if negb (result_kind_eqb (tc_result testcase) result_type)
      then print_tests_loop out_f rest result_type type_label found pos
      else
        pos <- (if negb found
                then write out_f ("  " ++ type_label ++ ": ");;
                     ret (Py.len type_label + 4)
                else ret pos);;
        let name_len := Py.len (tc_name testcase) + 1 in
        let pos := pos + (name_len + 1) in
        pos <- (if pos >? 76
                then write out_f (Py.NL ++ "    ");; ret (name_len + 5)
                else ret pos);;
        write out_f (tc_name testcase ++ " ");;
        print_tests_loop out_f rest result_type type_label true pos
  end.

Definition print_tests (out_f : handle) (testsuite : TestSuite)
    (result_type : result_kind) (type_label : string) : M unit :=
  found <- print_tests_loop out_f (testcases testsuite) result_type
             type_label false 0;;
  if found then write out_f Py.NL else ret tt.

(** ** Totals *)

Definition total_tests (testsuites : list TestSuite) : Z :=
  fold_left (fun total testsuite =>
               match tests testsuite with
               | Some n => total + n
               | None => total
               end) testsuites 0.

(** [sum_testsuites] adds the counters without a guard: a suite whose
    [tests] is [None] raises [TypeError]. *)
Definition sum_testsuites (testsuites : list TestSuite)
  : outcome (Z * Z * Z * Z * Q) :=
  fold_left (fun acc testsuite =>
               match acc with
               | Raised e => Raised e
               | Returned (tests_, skipped_, failures_, errors_, runtime) =>
                   match tests testsuite with
                   | None => Raised TypeError
                   | Some n =>
                       Returned (tests_ + n,
                                 skipped_ + skipped testsuite,
                                 failures_ + failures testsuite,
                                 errors_ + errors testsuite,
                                 (runtime + time testsuite)%Q)
                   end
               end) testsuites (Returned (0, 0, 0, 0, 0%Q)).

(** ** The summary of one suite *)

Definition status_of (r : result_kind) : string :=
  match r with
  | Pass => "Pass"
  | Failure => "Failed"
  | Skipped => "Skipped"
  | Error => "Error"
  end.

Fixpoint print_verbose_loop (out_f : handle) (tcs : list TestCase) : M unit :=
  match tcs with
  | [] => ret tt
  | test_case :: rest =>
      write out_f ("  " ++ Py.ljust 12 (tc_name test_case) ++ " "
                   ++ Py.ljust 8 (status_of (tc_result test_case)) ++ " "
                   ++ Py.fmt_d_float (tc_time test_case) ++ "s" ++ Py.NL);;
      print_verbose_loop out_f rest
  end.

Definition print_summary (out_f : handle) (testsuite : TestSuite)
    (verbose : bool) : M unit :=
  let cfg := get_property (properties testsuite) "TESTCFG" in
  let cfg := match cfg with
             | None => get_property (properties testsuite) "FSTESTCFG"
             | Some _ => cfg
             end in
  let runtime := time testsuite in
  let skipped := skipped testsuite in
  let failures := failures testsuite in
  let errors := errors testsuite in
  match tests testsuite with
  | None => raise TypeError          (* '%d' % None *)
  | Some tests =>
      write out_f (Py.fmt_s cfg ++ ": " ++ Py.fmt_d tests ++ " tests, ")
  end;;
  (if failures >? 0
   then write out_f (Py.fmt_d failures ++ " failures, ") else ret tt);;
  (if errors >? 0
   then write out_f (Py.fmt_d errors ++ " errors, ") else ret tt);;
  (if skipped >? 0
   then write out_f (Py.fmt_d skipped ++ " skipped, ") else ret tt);;
  write out_f (Py.fmt_d_float runtime ++ " seconds" ++ Py.NL);;
  if verbose
  then print_verbose_loop out_f (testcases testsuite)
  else
    if failures >? 0
    then print_tests out_f testsuite Failure "Failures";;
         (if errors >? 0
          then print_tests out_f testsuite Error "Errors" else ret tt)
    else ret tt.

(** ** Header and trailer *)

(** ['%-10s %s\n' % (key + ':', value)] *)
Definition property_line (key : string) (value : option string) : string :=
  Py.ljust 10 (key ++ ":") ++ " " ++ Py.fmt_s value ++ Py.NL.

Definition print_property_line (out_f : handle) (props : option Properties)
    (key : string) : M unit :=
  let value := get_property props key in
  match value with
  | Some v => if negb (String.eqb v "")
              then write out_f (property_line key value) else ret tt
  | None => ret tt
  end.

Fixpoint print_properties_loop (out_f : handle) (key : string)
    (g : generator (option string)) : M unit :=
  match g with
  | GStop => ret tt
  | GRaise e => raise e
  | GYield value rest =>
      write out_f (property_line key value);;
      print_properties_loop out_f key rest
  end.

Definition print_properties (out_f : handle) (props : option Properties)
    (key : string) : M unit :=
  print_properties_loop out_f key (get_properties props key).

Definition print_header (out_f : handle) (props : option Properties) : M unit :=
  print_property_line out_f props "TESTRUNID";;
  print_property_line out_f props "KERNEL";;
  print_property_line out_f props "CMDLINE";;
  print_property_line out_f props "CPUS";;
  print_property_line out_f props "MEM";;
  print_property_line out_f props "MNTOPTS";;
  write out_f Py.NL.

Definition print_trailer (out_f : handle) (props : option Properties) : M unit :=
  write out_f Py.NL;;
  print_property_line out_f props "FSTESTIMG";;
  print_property_line out_f props "FSTESTPRJ";;
  print_properties out_f props "FSTESTVER";;
  print_property_line out_f props "FSTESTCFG";;
  print_property_line out_f props "FSTESTSET";;
  print_property_line out_f props "FSTESTEXC";;
  print_property_line out_f props "FSTESTOPT";;
  print_property_line out_f props "GCE ID".

(** ** The LTM marker file *)

(** [props.add_property(p)] appends; on [None] the call raises. *)
Definition add_property (props : option Properties) (p : Property)
  : outcome (option Properties) :=
  match props with
  | None => Raised AttributeError
  | Some l => Returned (Some (app l [p]))
  end.

(** The [for line in out_f] loop of [check_for_ltm]. *)
Fixpoint check_for_ltm_loop (lines : list string) (props : option Properties)
  : outcome (option Properties) :=
  match lines with
  | [] => Returned props
  | line :: rest =>
      match Py.split_colon_space line with
      | None => Raised ValueError
      | Some (key, value) =>
          let value := Py.strip Py.dquote (Py.rstrip Py.nl value) in
          let props := remove_properties props key in
          match add_property props (mkProperty key value) with
          | Raised e => Raised e
          | Returned props => check_for_ltm_loop rest props
          end
      end
  end.

(** [check_for_ltm]: [ltm_run_stats] is the lines of the marker file, [None]
    when opening it raises [IOError].  Returns the properties after the
    in-place updates and whether LTM mode is on. *)
Definition check_for_ltm (ltm_run_stats : option (list string))
    (props : option Properties) : outcome (option Properties * bool) :=
  match ltm_run_stats with
  | None => Returned (props, false)
  | Some lines =>
      match check_for_ltm_loop lines props with
      | Raised e => Raised e
      | Returned props =>
          let props := remove_properties props "GCE ID" in
          let props := remove_properties props "FSTESTCFG" in
          Returned (props, true)
      end
  end.

(** ** The report *)

(** What a results directory holds for the module: the records loaded from
    the [results.xml] files, in the order [os.walk] finds them, and the
    lines of [ltm-run-stats] when that file can be opened. *)
Record ResultsDir : Type := mkResultsDir {
  record_files : list TestSuite;
  ltm_run_stats : option (list string)
}.

Definition lift {A} (o : outcome A) : M A := ([], o).

Section Platform.

(** The two library calls of [parse_timestamp].  [strptime] stands for
    [datetime.strptime(s, '%Y-%m-%dT%H:%M:%S').timetuple()], [None] when
    it raises [ValueError]; [mktime] for [time.mktime], which depends on
    the local time zone, [None] when it raises [OverflowError].  The
    result of [mktime] is a float holding a whole number of seconds. *)
Variable struct_time : Type.
Variable strptime : string -> option struct_time.
Variable mktime : struct_time -> option Z.

Definition parse_timestamp (timestamp : string) : outcome Z :=
  match strptime timestamp with
  | None => Raised ValueError
  | Some tm =>
      match mktime tm with
      | None => Raised OverflowError
      | Some t => Returned t
      end
  end.

(** [sorted] calls the key function on every element, in list order,
    before it compares anything. *)
Fixpoint decorate (reports : list TestSuite) : outcome (list (Z * TestSuite)) :=
  match reports with
  | [] => Returned []
  | ts :: rest =>
      match parse_timestamp (timestamp ts) with
      | Raised e => Raised e
      | Returned k =>
          match decorate rest with
          | Raised e => Raised e
          | Returned l => Returned ((k, ts) :: l)
          end
      end
  end.

(** [sorted(reports, key=sort_by)] for the [sort_by] chosen from [ltm]. *)
Definition sorted_reports (ltm : bool) (reports : list TestSuite)
  : outcome (list TestSuite) :=
  if ltm
  then Returned (map snd (Py.sorted fst String.ltb
                            (map (fun ts => (hostname ts, ts)) reports)))
  else
    match decorate reports with
    | Raised e => Raised e
    | Returned l => Returned (map snd (Py.sorted fst Z.ltb l))
    end.

(** The loop over the sorted suites; [nr_files] counts them. *)
Fixpoint summary_loop (out_f : handle) (order : list TestSuite)
    (verbose : bool) (nr_files : Z) : M Z :=
  match order with
  | [] => ret nr_files
  | testsuite :: rest =>
      print_summary out_f testsuite verbose;;
      summary_loop out_f rest verbose (nr_files + 1)
  end.

Definition totals_line (t : Z * Z * Z * Z * Q) : string :=
  let '(tests_, skipped_, failures_, errors_, runtime) := t in
  "Totals: " ++ Py.fmt_d tests_ ++ " tests, " ++ Py.fmt_d skipped_
  ++ " skipped, " ++ Py.fmt_d failures_ ++ " failures, "
  ++ Py.fmt_d errors_ ++ " errors, " ++ Py.fmt_d_float runtime ++ "s"
  ++ Py.NL.

(** The archive update at the end of [gen_results_summary]. *)
Definition merge (path_exists : string -> bool) (merge_fn : string)
    (nsuites : nat) : M unit :=
  ([EvArchiveWrite (merge_fn ++ ".new") nsuites], Returned tt);;
  ([EvExists merge_fn], Returned tt);;
  (if path_exists merge_fn
   then ([EvRename merge_fn (merge_fn ++ ".bak")], Returned tt)
   else ret tt);;
  ([EvRename (merge_fn ++ ".new") merge_fn], Returned tt).

Definition gen_results_summary (results_dir : ResultsDir)
    (path_exists : string -> bool)
    (output_fn merge_fn : option string) (verbose : bool) : M Z :=
  let reports := record_files results_dir in
  match reports with
  | [] => ret 0
  | first :: _ =>
      out_f <- match output_fn with
               | Some fn => ([EvOpenWrite fn], Returned (OutFile fn))
               | None => ret Stdout
               end;;
      let props := child_Properties first in
      pl <- lift (check_for_ltm (ltm_run_stats results_dir) props);;
      let '(props, ltm) := pl in
      print_header out_f props;;
      let verbose := if total_tests reports <? 30 then true else verbose in
      order <- lift (sorted_reports ltm reports);;
      nr_files <- summary_loop out_f order verbose 0;;
      totals <- lift (sum_testsuites reports);;
      write out_f (totals_line totals);;
      print_trailer out_f props;;
      match merge_fn with
      | Some fn => merge path_exists fn (List.length order)
      | None => ret tt
      end;;
      ret nr_files
  end.

End Platform.

(** ** A sample platform: local time is UTC

    [utc_strptime] reads the fixed-width form [YYYY-MM-DDTHH:MM:SS] and
    [utc_mktime] counts the seconds since 1970-01-01T00:00:00.  It serves
    to run the model on concrete records. *)
Module Utc.

Record tm : Type := mkTm {
  tm_year : Z; tm_mon : Z; tm_mday : Z;
  tm_hour : Z; tm_min : Z; tm_sec : Z
}.

Definition digit (c : ascii) : option Z :=
  let n := Z.of_nat (nat_of_ascii c) in
  if (48 <=? n) && (n <=? 57) then Some (n - 48) else None.

Fixpoint number (acc : Z) (s : string) : option Z :=
  match s with
  | EmptyString => Some acc
  | String c rest =>
      match digit c with
      | Some d => number (10 * acc + d) rest
      | None => None
      end
  end.

Definition field (s : string) (start width : nat) : option Z :=
  let f := substring start width s in
  if Nat.eqb (String.length f) width then number 0 f else None.

Definition is_leap (y : Z) : bool :=
  ((y mod 4 =? 0) && negb (y mod 100 =? 0)) || (y mod 400 =? 0).

Definition days_in_month (y m : Z) : Z :=
  if m =? 2 then (if is_leap y then 29 else 28)
  else if (m =? 4) || (m =? 6) || (m =? 9) || (m =? 11) then 30 else 31.

Definition utc_strptime (s : string) : option tm :=
  if negb (Nat.eqb (String.length s) 19) then None else
  if negb (String.eqb (substring 4 1 s) "-" && String.eqb (substring 7 1 s) "-"
           && String.eqb (substring 10 1 s) "T"
           && String.eqb (substring 13 1 s) ":"
           && String.eqb (substring 16 1 s) ":") then None else
  match field s 0 4, field s 5 2, field s 8 2,
        field s 11 2, field s 14 2, field s 17 2 with
  | Some y, Some m, Some d, Some hh, Some mm, Some ss =>
      if (1 <=? y) && (1 <=? m) && (m <=? 12) && (1 <=? d)
         && (d <=? days_in_month y m) && (hh <? 24) && (mm <? 60)
         && (ss <? 60)
      then Some (mkTm y m d hh mm ss) else None
  | _, _, _, _, _, _ => None
  end.

Definition days_from_civil (y m d : Z) : Z :=
  let y := if m <=? 2 then y - 1 else y in
  let era := y / 400 in
  let yoe := y - era * 400 in
  let doy := (153 * (if m >? 2 then m - 3 else m + 9) + 2) / 5 + d - 1 in
  let doe := yoe * 365 + yoe / 4 - yoe / 100 + doy in
  era * 146097 + doe - 719468.

Definition utc_mktime (t : tm) : option Z :=
  Some (days_from_civil (tm_year t) (tm_mon t) (tm_mday t) * 86400
        + tm_hour t * 3600 + tm_min t * 60 + tm_sec t).

Definition gen_results_summary := gen_results_summary tm utc_strptime utc_mktime.

End Utc.

(** * Specifications

    The properties are stated with the definitions below: what the
    specification says, read off the data and not off the control flow of
    the module, and the sample records the module is run on. *)

(** A value as the marker file writes it, between double quotes. *)
Definition quoted (s : string) : string :=
  String Py.dquote s ++ String Py.dquote EmptyString.

(** The first value of a name, read off the sequence of entries. *)
Definition first_value (props : Properties) (key : string) : option string :=
  option_map value (find (fun p => String.eqb (name p) key) props).

(** The configuration name of the summary line: the first [TESTCFG] value,
    else the first [FSTESTCFG] value, else what [None] prints as. *)
Definition config_name (ts : TestSuite) : string :=
  let props := match child_Properties ts with
               | Some l => l
               | None => []
               end in
  match first_value props "TESTCFG" with
  | Some v => v
  | None =>
      match first_value props "FSTESTCFG" with
      | Some v => v
      | None => "None"
      end
  end.

(** A clause of the summary line, present only for a positive count. *)
Definition clause (count : Z) (label : string) : string :=
  if 0 <? count then Py.fmt_d count ++ label else "".

(** The summary line of a suite whose [tests] counter is [n]. *)
Definition summary_line (ts : TestSuite) (n : Z) : string :=
  config_name ts ++ ": " ++ Py.fmt_d n ++ " tests, "
  ++ clause (failures ts) " failures, "
  ++ clause (errors ts) " errors, "
  ++ clause (skipped ts) " skipped, "
  ++ Py.fmt_d_float (time ts) ++ " seconds" ++ Py.NL.

(** The names [print_tests] lists: those of the test cases whose result is
    of the requested kind, in suite order. *)
Definition listed_names (tcs : list TestCase) (result_type : result_kind)
  : list string :=
  map tc_name
    (filter (fun tc => result_kind_eqb (tc_result tc) result_type) tcs).

(** The texts written for the names, from a tracked position [pos]: every
    name advances the position by its length plus two, and a line break with
    a four-space indent comes before the name exactly when the advanced
    position is past 76; the position then restarts at the length plus six. *)
Fixpoint wrap_names (pos : Z) (names : list string) : list string :=
  match names with
  | [] => []
  | n :: rest =>
      if pos + (Py.len n + 2) >? 76
      then (Py.NL ++ "    ") :: (n ++ " ") :: wrap_names (Py.len n + 6) rest
      else (n ++ " ") :: wrap_names (pos + (Py.len n + 2)) rest
  end.

(** The whole list: the label, the names, the closing newline; nothing
    when no name is listed. *)
Definition wrapped_list (type_label : string) (names : list string)
  : list string :=
  match names with
  | [] => []
  | _ :: _ =>
      ("  " ++ type_label ++ ": ")
        :: app (wrap_names (Py.len type_label + 4) names) [Py.NL]
  end.

(** The rule in the words of the specification: the column after the label,
    advanced by what is written (the name and one space), with a break
    exactly when that would pass column 76. *)
Fixpoint wrap_names_by_column (col : Z) (names : list string) : list string :=
  match names with
  | [] => []
  | n :: rest =>
      if col + (Py.len n + 1) >? 76
      then (Py.NL ++ "    ") :: (n ++ " ")
             :: wrap_names_by_column (4 + (Py.len n + 1)) rest
      else (n ++ " ") :: wrap_names_by_column (col + (Py.len n + 1)) rest
  end.

Definition wrapped_list_by_column (type_label : string) (names : list string)
  : list string :=
  match names with
  | [] => []
  | _ :: _ =>
      ("  " ++ type_label ++ ": ")
        :: app (wrap_names_by_column (Py.len type_label + 4) names) [Py.NL]
  end.

(** All the values of a name, in insertion order. *)
Definition values_of (props : Properties) (key : string) : list string :=
  map value (filter (fun p => String.eqb (name p) key) props).

(** The line of a single-value property: there when the first value exists
    and is not empty. *)
Definition single_value_line (props : Properties) (key : string)
  : list string :=
  match first_value props key with
  | Some v => if String.eqb v "" then [] else [property_line key (Some v)]
  | None => []
  end.

(** The trailer as the code writes it: every [FSTESTVER] value has its
    line. *)
Definition trailer_lines (props : Properties) : list string :=
  Py.NL
    :: app (single_value_line props "FSTESTIMG")
      (app (single_value_line props "FSTESTPRJ")
      (app (map (fun v => property_line "FSTESTVER" (Some v))
              (values_of props "FSTESTVER"))
      (app (single_value_line props "FSTESTCFG")
      (app (single_value_line props "FSTESTSET")
      (app (single_value_line props "FSTESTEXC")
      (app (single_value_line props "FSTESTOPT")
           (single_value_line props "GCE ID"))))))).

(** The trailer in the words of the specification: the [FSTESTVER] lines
    follow the rule of the single-value lines, an empty value has none. *)
Definition trailer_lines_all_nonempty (props : Properties) : list string :=
  Py.NL
    :: app (single_value_line props "FSTESTIMG")
      (app (single_value_line props "FSTESTPRJ")
      (app (map (fun v => property_line "FSTESTVER" (Some v))
              (filter (fun v => negb (String.eqb v ""))
                 (values_of props "FSTESTVER")))
      (app (single_value_line props "FSTESTCFG")
      (app (single_value_line props "FSTESTSET")
      (app (single_value_line props "FSTESTEXC")
      (app (single_value_line props "FSTESTOPT")
           (single_value_line props "GCE ID"))))))).

(** [x] may stand before [y] in a list sorted on [key]: the key of [y] is
    not smaller. *)
Definition key_le {A K : Type} (key : A -> K) (ltb : K -> K -> bool)
    (x y : A) : Prop :=
  ltb (key y) (key x) = false.

(** The handle [out_f] is bound to. *)
Definition out_handle (output_fn : option string) : handle :=
  match output_fn with
  | Some fn => OutFile fn
  | None => Stdout
  end.

(** What one suite contributes to the report. *)
Definition summary_texts (out_f : handle) (verbose : bool) (ts : TestSuite)
  : list string :=
  written (fst (print_summary out_f ts verbose)).

(** The hostname of the first is not after that of the second, byte by
    byte. *)
Definition hostname_le (a b : TestSuite) : Prop :=
  String.leb (hostname a) (hostname b) = true.

(** Both timestamps parse and the first is not later. *)
Definition timestamp_le (struct_time : Type)
    (strptime : string -> option struct_time)
    (mktime : struct_time -> option Z) (a b : TestSuite) : Prop :=
  exists ka kb : Z,
    parse_timestamp struct_time strptime mktime (timestamp a) = Returned ka
    /\ parse_timestamp struct_time strptime mktime (timestamp b) = Returned kb
    /\ ka <= kb.

(** Whether [check_for_ltm] finds the marker file. *)
Definition marker_present (results_dir : ResultsDir) : bool :=
  match ltm_run_stats results_dir with
  | Some _ => true
  | None => false
  end.

(** The conditions under which a run goes through: the first record has a
    properties element, every suite has its [tests] counter, the lines of
    the marker file all hold the separator, and without a marker file every
    timestamp parses. *)
Definition well_formed (struct_time : Type)
    (strptime : string -> option struct_time)
    (mktime : struct_time -> option Z) (results_dir : ResultsDir) : Prop :=
  (exists first rest props,
      record_files results_dir = first :: rest
      /\ child_Properties first = Some props)
  /\ Forall (fun ts => tests ts <> None) (record_files results_dir)
  /\ match ltm_run_stats results_dir with
     | Some lines =>
         Forall (fun line => Py.split_colon_space line <> None) lines
     | None =>
         Forall (fun ts => exists k,
                   parse_timestamp struct_time strptime mktime (timestamp ts)
                   = Returned k) (record_files results_dir)
     end.

(** Sample records: three suites of one LTM run. *)
Definition sample_cases : list TestCase :=
  [mkTestCase "generic/001" Pass (3 # 2);
   mkTestCase "generic/002" Failure 4;
   mkTestCase "generic/003" Error 2].

Definition suite_4k : TestSuite :=
  mkTestSuite sample_cases (Some 3) 0 1 1 8
    "2019-03-02T10:00:00" "xfstests-ltm-a"
    (Some [mkProperty "TESTRUNID" "ltm-20190302"; mkProperty "KERNEL" "5.0.0";
           mkProperty "FSTESTVER" "e2fsprogs v1.45";
           mkProperty "FSTESTCFG" "4k"; mkProperty "TESTCFG" "ext4/4k"]).

Definition suite_1k : TestSuite :=
  mkTestSuite sample_cases (Some 3) 0 1 1 9
    "2019-03-01T22:30:00" "xfstests-ltm-b"
    (Some [mkProperty "TESTCFG" "ext4/1k"]).

Definition suite_bigalloc : TestSuite :=
  mkTestSuite sample_cases (Some 244) 25 1 1 880
    "2019-03-02T09:00:00" "xfstests-ltm-c"
    (Some [mkProperty "TESTCFG" "ext4/bigalloc"]).

(** A small run without the marker file, and a large one with it. *)
Definition small_dir : ResultsDir := mkResultsDir [suite_4k; suite_1k] None.
Definition large_dir : ResultsDir :=
  mkResultsDir [suite_4k; suite_bigalloc; suite_1k]
    (Some ["CMDLINE: " ++ quoted "-c ext4 -g auto" ++ Py.NL]).

(** A file system on which no archive exists yet. *)
Definition no_path (path : string) : bool := false.

(** An entry whose name is not [key]. *)
Definition other_name (key : string) (p : Property) : bool :=
  negb (String.eqb (name p) key).

(** No two neighbours in the sequence are both named [key]. *)
Fixpoint no_adjacent (key : string) (l : Properties) : bool :=
  match l with
  | a :: (b :: _) as rest =>
      negb (String.eqb (name a) key && String.eqb (name b) key)
      && no_adjacent key rest
  | _ => true
  end.

(** What a generator yields, and how its iteration ends. *)
Fixpoint yields {A : Type} (g : generator A) : list A :=
  match g with
  | GYield a rest => a :: yields rest
  | _ => []
  end.

Fixpoint ending {A : Type} (g : generator A) : outcome unit :=
  match g with
  | GStop => Returned tt
  | GRaise e => Raised e
  | GYield _ rest => ending rest
  end.

(** A line of the marker file as the LTM server writes it. *)
Definition marker_line (key value : string) : string :=
  key ++ ": " ++ quoted value ++ Py.NL.

(** What [check_for_ltm] reads in a line: the key and the value without its
    newline and quotes. *)
Definition parse_line (line : string) : option (string * string) :=
  match Py.split_colon_space line with
  | Some (key, value) =>
      Some (key, Py.strip Py.dquote (Py.rstrip Py.nl value))
  | None => None
  end.

(** The value the marker file gives a key: that of the last line with the
    key. *)
Fixpoint marker_value (lines : list string) (key : string) : option string :=
  match lines with
  | [] => None
  | line :: rest =>
      match marker_value rest key with
      | Some v => Some v
      | None =>
          match parse_line line with
          | Some (k, v) => if String.eqb k key then Some v else None
          | None => None
          end
      end
  end.

(** The marker file has a line for the name of the entry. *)
Definition marker_key (lines : list string) (p : Property) : bool :=
  existsb (fun line => match parse_line line with
                       | Some (k, _) => String.eqb k (name p)
                       | None => false
                       end) lines.

(** The entries the lines of the marker file leave at the end of the
    collection: one for each key, where its last line stands. *)
Fixpoint marker_props (lines : list string) : Properties :=
  match lines with
  | [] => []
  | line :: rest =>
      match parse_line line with
      | Some (k, v) =>
          app (filter (fun p => negb (marker_key rest p)) [mkProperty k v])
            (marker_props rest)
      | None => marker_props rest
      end
  end.

(** The two properties [check_for_ltm] drops in LTM mode. *)
Definition dropped_in_ltm (key : string) : bool :=
  String.eqb key "GCE ID" || String.eqb key "FSTESTCFG".

(** Every name occurs once at most. *)
Definition names_unique (props : Properties) : Prop :=
  NoDup (map name props).

(** What [check_for_ltm] leaves of a collection at its end: the entries
    that are neither [GCE ID] nor [FSTESTCFG]. *)
Definition kept_in_ltm (props : Properties) : Properties :=
  filter (other_name "FSTESTCFG") (filter (other_name "GCE ID") props).


(** The events of opening the output: the file named by the caller is
    opened for writing, standard output needs nothing. *)
Definition opened (output_fn : option string) : list event :=
  match output_fn with
  | Some fn => [EvOpenWrite fn]
  | None => []
  end.



(** Sums of counters. *)
Definition Zsum (l : list Z) : Z := fold_right Z.add 0 l.

(** The [tests] counter as [total_tests] counts it: nothing for [None]. *)
Definition tests_or_zero (ts : TestSuite) : Z :=
  match tests ts with
  | Some n => n
  | None => 0
  end.

(** The text a sequence of writes leaves in the output. *)
Definition content (texts : list string) : string :=
  fold_right String.append EmptyString texts.

(** The text has no newline in it. *)
Fixpoint one_line (s : string) : bool :=
  match s with
  | EmptyString => true
  | String c rest => negb (Ascii.eqb c Py.nl) && one_line rest
  end.

(** Written from column [col] on, the text puts no character past column
    [limit]; a newline starts again at column 0. *)
Fixpoint within (limit col : Z) (s : string) : bool :=
  match s with
  | EmptyString => true
  | String c rest =>
      if Ascii.eqb c Py.nl then within limit 0 rest
      else (col + 1 <=? limit) && within limit (col + 1) rest
  end.

(** The header as a list of lines: one for each of the six properties whose
    first value is present and not empty, in this order, then an empty
    line; without a collection, the empty line alone. *)
Definition header_lines (props : option Properties) : list string :=
  app (flat_map (fun key => match props with
                            | Some l => single_value_line l key
                            | None => []
                            end)
         ["TESTRUNID"; "KERNEL"; "CMDLINE"; "CPUS"; "MEM"; "MNTOPTS"])
    [Py.NL].

(** The line of a test case in verbose mode. *)
Definition verbose_line (tc : TestCase) : string :=
  "  " ++ Py.ljust 12 (tc_name tc) ++ " "
  ++ Py.ljust 8 (status_of (tc_result tc)) ++ " "
  ++ Py.fmt_d_float (tc_time tc) ++ "s" ++ Py.NL.

(** The value is not written with a double quote at either end. *)
Definition unquoted (value : string) : Prop :=
  Py.lstrip Py.dquote value = value /\ Py.rstrip Py.dquote value = value.

(** The timestamp of the suite parses to [k]. *)
Definition timestamp_is (struct_time : Type)
    (strptime : string -> option struct_time)
    (mktime : struct_time -> option Z) (k : Z) (ts : TestSuite) : bool :=
  match parse_timestamp struct_time strptime mktime (timestamp ts) with
  | Returned k' => Z.eqb k' k
  | Raised _ => false
  end.

(** An entry the marker file has nothing to do with: its name is no key of
    the file and is not dropped in LTM mode. *)
Definition unrelated (lines : list string) (p : Property) : bool :=
  negb (marker_key lines p) && negb (dropped_in_ltm (name p)).

(** * Properties *)

(** ** The multi-value lookup *)

(** C10. With the whole properties collection absent ([None]),
    [get_properties] does not give an empty sequence: it yields the [None]
    sentinel first, and the iteration then ends with an exception
    ([TypeError], from iterating [None]) and not with a normal stop. *)
Theorem get_properties_None :
  forall key : string,
    get_properties None key = GYield None (GRaise TypeError).
Proof. intro key. reflexivity. Qed.

(** ** Removal while iterating *)

Lemma remove_length : forall prop l,
  (List.length (remove prop l) <= List.length l)%nat.
Proof.
  intros prop l; induction l as [|p l IH]; simpl; [lia|].
  destruct (Property_eqb p prop); simpl; lia.
Qed.

(** Once the index is past the end the loop has stopped. *)
Lemma remove_properties_loop_done : forall fuel key i l,
  (List.length l <= i)%nat -> remove_properties_loop fuel key i l = l.
Proof.
  intros fuel key i l H. destruct fuel as [|fuel]; simpl; [reflexivity|].
  apply nth_error_None in H. now rewrite H.
Qed.

(** The fuel [remove_properties] gives is enough: more of it changes
    nothing. *)
Lemma remove_properties_loop_fuel : forall fuel key i l extra,
  (List.length l <= i + fuel)%nat ->
  remove_properties_loop (fuel + extra) key i l
  = remove_properties_loop fuel key i l.
Proof.
  induction fuel as [|fuel IH]; intros key i l extra H.
  - simpl. apply remove_properties_loop_done. lia.
  - simpl. destruct (nth_error l i) as [prop|] eqn:E; [|reflexivity].
    destruct (String.eqb (name prop) key).
    + apply IH. pose proof (remove_length prop l). lia.
    + apply IH. lia.
Qed.

(** Entries with another name are never touched, so without an entry of
    that name the call changes nothing. *)
Lemma remove_properties_loop_absent : forall fuel key i l,
  (forall p, In p l -> name p <> key) ->
  remove_properties_loop fuel key i l = l.
Proof.
  induction fuel as [|fuel IH]; intros key i l H; simpl; [reflexivity|].
  destruct (nth_error l i) as [prop|] eqn:E; [|reflexivity].
  destruct (String.eqb_spec (name prop) key) as [Heq|Hne].
  - exfalso. apply (H prop); [eapply nth_error_In; eauto | assumption].
  - now apply IH.
Qed.

Lemma remove_properties_absent : forall l key,
  (forall p, In p l -> name p <> key) ->
  remove_properties (Some l) key = Some l.
Proof.
  intros l key H. unfold remove_properties.
  now rewrite remove_properties_loop_absent.
Qed.

(** C2, evaluated on the code.  Two adjacent entries of the name to remove:
    the first is deleted, the second slides into its index and the loop
    steps over it, so it stays in the collection. *)
Theorem remove_properties_skips_adjacent :
  forall key v1 v2 : string,
    remove_properties (Some [mkProperty key v1; mkProperty key v2]) key
    = Some [mkProperty key v2].
Proof.
  intros key v1 v2. unfold remove_properties. simpl.
  rewrite String.eqb_refl. simpl.
  unfold Property_eqb. simpl. rewrite !String.eqb_refl. reflexivity.
Qed.

(** ** Applying the marker file twice *)

(** C3, evaluated on the code.  The record carries two version strings and
    the marker sets [FSTESTVER]: one application leaves the second old
    value next to the new one, a second application removes that old value
    and adds the new one again, so the two results differ. *)
Theorem check_for_ltm_twice_differs :
  let props := Some [mkProperty "FSTESTVER" "e2fsprogs v1.45";
                     mkProperty "FSTESTVER" "fio 3.12"] in
  let marker := Some ["FSTESTVER: " ++ quoted "xfstests 2019" ++ Py.NL] in
  let once := Some [mkProperty "FSTESTVER" "fio 3.12";
                    mkProperty "FSTESTVER" "xfstests 2019"] in
  let twice := Some [mkProperty "FSTESTVER" "xfstests 2019";
                     mkProperty "FSTESTVER" "xfstests 2019"] in
  check_for_ltm marker props = Returned (once, true)
  /\ check_for_ltm marker once = Returned (twice, true)
  /\ once <> twice.
Proof. repeat split; discriminate. Qed.

(** ** The compact lists *)

(** C1, evaluated on the code.  A suite with no failure and five errors,
    shown in compact mode: the summary line is all that is written, the
    list of erroring tests is not, because the test on [errors] sits inside
    the branch taken only when [failures > 0]. *)
Theorem print_summary_errors_without_failures :
  let erroring := map (fun n => mkTestCase n Error 1)
                    ["generic/219"; "generic/235"; "generic/422";
                     "generic/451"; "generic/456"] in
  let suite := mkTestSuite erroring (Some 244) 25 0 5 880
                 "2019-03-02T10:00:00" "xfstests-1"
                 (Some [mkProperty "TESTCFG" "ext4/bigalloc"]) in
  print_summary Stdout suite false
  = ([EvWrite Stdout "ext4/bigalloc: 244 tests, ";
      EvWrite Stdout "5 errors, ";
      EvWrite Stdout "25 skipped, ";
      EvWrite Stdout ("880 seconds" ++ Py.NL)], Returned tt).
Proof. reflexivity. Qed.

(** ** No record file *)

(** C8. When no record file is found under the root directory,
    [gen_results_summary] returns 0 and does nothing else: no write, the
    output file named by the caller is not opened, the archive path is
    neither tested, written nor renamed. *)
Theorem gen_results_summary_no_records :
  forall (struct_time : Type) (strptime : string -> option struct_time)
         (mktime : struct_time -> option Z)
         (marker : option (list string)) (path_exists : string -> bool)
         (output_fn merge_fn : option string) (verbose : bool),
    gen_results_summary struct_time strptime mktime
      (mkResultsDir [] marker) path_exists output_fn merge_fn verbose
    = ([], Returned 0).
Proof. intros. reflexivity. Qed.

(** ** The summary line *)

Lemma append_assoc : forall a b c : string, (a ++ b) ++ c = a ++ (b ++ c).
Proof.
  induction a as [|x a IH]; intros b c; simpl; [reflexivity|].
  now rewrite IH.
Qed.

Lemma append_nil_r : forall a : string, a ++ "" = a.
Proof.
  induction a as [|x a IH]; simpl; [reflexivity|]. now rewrite IH.
Qed.

Lemma bind_write : forall {B} (h : handle) (s : string) (k : unit -> M B),
  bind (write h s) k = (EvWrite h s :: fst (k tt), snd (k tt)).
Proof.
  intros B h s k. unfold bind, write. destruct (k tt); reflexivity.
Qed.

Lemma bind_Returned : forall {A B} (t : list event) (a : A) (k : A -> M B),
  bind (t, Returned a) k = (app t (fst (k a)), snd (k a)).
Proof.
  intros A B t a k. unfold bind. destruct (k a); reflexivity.
Qed.

Ltac mstep :=
  unfold write, ret, lift;
  repeat (rewrite bind_Returned; cbn [fst snd app]).

Lemma bind_ret : forall {A B} (a : A) (k : A -> M B), bind (ret a) k = k a.
Proof.
  intros A B a k. unfold bind, ret. destruct (k a); reflexivity.
Qed.

Lemma get_property_loop_first_value : forall props key,
  get_property_loop props key = first_value props key.
Proof.
  intros props key; unfold first_value.
  induction props as [|p l IH]; simpl; [reflexivity|].
  destruct (String.eqb (name p) key); [reflexivity | exact IH].
Qed.

Lemma fmt_s_config_name : forall ts,
  Py.fmt_s (match get_property (properties ts) "TESTCFG" with
            | None => get_property (properties ts) "FSTESTCFG"
            | Some v => Some v
            end) = config_name ts.
Proof.
  intro ts. unfold config_name, properties, get_property.
  destruct (child_Properties ts) as [l|]; [|reflexivity].
  rewrite !get_property_loop_first_value.
  destruct (first_value l "TESTCFG"); [reflexivity|].
  destruct (first_value l "FSTESTCFG"); reflexivity.
Qed.

(** C7. For a suite (with its [tests] counter present), [print_summary]
    first writes the line
    [<config-name>: <N> tests, [<F> failures, ][<E> errors, ][<S> skipped, ]<T> seconds]:
    the three optional clauses come in that order, each present exactly when
    its count is positive, the seconds clause always; the configuration name
    is the first [TESTCFG] value if there is one, else the first [FSTESTCFG]
    value, else the text [None] that the lookup's result prints as. *)
Theorem print_summary_line :
  forall (out_f : handle) (ts : TestSuite) (verbose : bool) (n : Z),
    tests ts = Some n ->
    exists head rest : list event,
      fst (print_summary out_f ts verbose) = app head rest
      /\ Forall (fun e => exists s, e = EvWrite out_f s) head
      /\ String.concat "" (written head) = summary_line ts n.
Proof.
  intros out_f ts verbose n Hn.
  pose (opt := fun (c : Z) (label : string) =>
                 if c >? 0 then [EvWrite out_f (Py.fmt_d c ++ label)] else []).
  exists (EvWrite out_f (config_name ts ++ ": " ++ Py.fmt_d n ++ " tests, ")
          :: app (opt (failures ts) " failures, ")
               (app (opt (errors ts) " errors, ")
                  (app (opt (skipped ts) " skipped, ")
                     [EvWrite out_f (Py.fmt_d_float (time ts) ++ " seconds"
                                     ++ Py.NL)]))).
  unfold print_summary. rewrite Hn.
  pose proof (fmt_s_config_name ts) as Hcfg.
  destruct (get_property (properties ts) "TESTCFG") as [v|] eqn:E1;
    rewrite Hcfg; clear Hcfg;
    unfold summary_line, clause, opt; rewrite <- ?Z.gtb_ltb;
    destruct (failures ts >? 0), (errors ts >? 0), (skipped ts >? 0);
    (eexists; split; [|split]);
    rewrite ?bind_write, ?bind_ret; simpl;
    rewrite ?bind_write, ?bind_ret; simpl;
    repeat (rewrite ?append_assoc, ?append_nil_r; simpl);
    try reflexivity;
    repeat first [apply Forall_nil | apply Forall_cons; [eexists; reflexivity|]].
Qed.

(** The example of the record of [ext4/bigalloc]: 244 tests, 5 errors,
    25 skipped, 880 seconds. *)
Lemma print_summary_line_witness :
  let suite := mkTestSuite [] (Some 244) 25 0 5 880
                 "2019-03-02T10:00:00" "xfstests-1"
                 (Some [mkProperty "TESTCFG" "ext4/bigalloc"]) in
  summary_line suite 244
  = "ext4/bigalloc: 244 tests, 5 errors, 25 skipped, 880 seconds" ++ Py.NL
  /\ exists head rest : list event,
      fst (print_summary Stdout suite false) = app head rest
      /\ Forall (fun e => exists s, e = EvWrite Stdout s) head
      /\ String.concat "" (written head) = summary_line suite 244.
Proof.
  split; [reflexivity|].
  apply (print_summary_line Stdout _ false 244). reflexivity.
Defined.

(** ** Wrapping the compact lists *)

Lemma print_tests_loop_spec :
  forall out_f result_type type_label tcs found pos,
    print_tests_loop out_f tcs result_type type_label found pos
    = match listed_names tcs result_type with
      | [] => ([], Returned found)
      | names =>
          (map (EvWrite out_f)
             (app (if found then [] else ["  " ++ type_label ++ ": "])
                (wrap_names (if found then pos else Py.len type_label + 4)
                   names)),
           Returned true)
      end.
Proof.
  intros out_f result_type type_label tcs.
  induction tcs as [|tc tcs IH]; intros found pos; [reflexivity|].
  unfold listed_names in *. cbn [print_tests_loop filter].
  destruct (result_kind_eqb (tc_result tc) result_type) eqn:Ekind;
    cbn [negb map]; [|apply IH].
  assert (Hgt : forall a b : Z, (a + (b + 1 + 1) >? 76) = (a + (b + 2) >? 76))
    by (intros; f_equal; lia).
  assert (Hpos : forall a b : Z, a + (b + 1 + 1) = a + (b + 2)) by (intros; lia).
  assert (Hrst : forall b : Z, b + 1 + 5 = b + 6) by (intros; lia).
  destruct found; cbn [negb wrap_names]; mstep; rewrite ?Hgt;
    match goal with
    | |- context [?a + (?b + 2) >? 76] => destruct (a + (b + 2) >? 76)
    end;
    mstep; rewrite IH, ?Hpos, ?Hrst;
    match goal with
    | |- context [map tc_name ?l] => destruct (map tc_name l)
    end; reflexivity.
Qed.

(** C6, as the code has it.  In [print_tests] the tracked position starts
    at the column after the label, [len(label) + 4], and each listed name
    advances it by [len(name) + 2], one more than the name and its trailing
    space take; a newline and a four-space indent are written before the
    name exactly when the advanced position is past 76, and the position
    then restarts at [len(name) + 6].  Every name is written whole with one
    space after it, so no break splits a name and the names of a line are
    separated by spaces; nothing at all is written without a listed name. *)
Theorem print_tests_wraps :
  forall (out_f : handle) (testsuite : TestSuite) (result_type : result_kind)
         (type_label : string),
    print_tests out_f testsuite result_type type_label
    = (map (EvWrite out_f)
         (wrapped_list type_label
            (listed_names (testcases testsuite) result_type)),
       Returned tt).
Proof.
  intros out_f testsuite result_type type_label.
  unfold print_tests. rewrite print_tests_loop_spec. unfold wrapped_list.
  destruct (listed_names (testcases testsuite) result_type) as [|n names].
  - reflexivity.
  - mstep. cbn [map app]. rewrite map_app. reflexivity.
Qed.

(** Five failing tests with names of eleven characters: by the column rule
    of the claim the fifth name ends at column 72 and stays on the first
    line, the code has its position at 77 and breaks before it. *)
Lemma print_tests_breaks_before_column_76 :
  let failing := map (fun n => mkTestCase n Failure 1)
                   ["generic/219"; "generic/235"; "generic/422";
                    "generic/451"; "generic/456"] in
  let suite := mkTestSuite failing (Some 244) 0 5 0 880
                 "2019-03-02T10:00:00" "xfstests-1" None in
  written (fst (print_tests Stdout suite Failure "Failures"))
  = ["  Failures: "; "generic/219 "; "generic/235 "; "generic/422 ";
     "generic/451 "; Py.NL ++ "    "; "generic/456 "; Py.NL]
  /\ wrapped_list_by_column "Failures" (listed_names failing Failure)
     = ["  Failures: "; "generic/219 "; "generic/235 "; "generic/422 ";
        "generic/451 "; "generic/456 "; Py.NL]
  /\ written (fst (print_tests Stdout suite Failure "Failures"))
     <> wrapped_list_by_column "Failures" (listed_names failing Failure).
Proof. repeat split; discriminate. Qed.

(** ** The trailer *)

Lemma print_property_line_spec : forall out_f props key,
  print_property_line out_f (Some props) key
  = (map (EvWrite out_f) (single_value_line props key), Returned tt).
Proof.
  intros out_f props key.
  unfold print_property_line, single_value_line, get_property.
  rewrite get_property_loop_first_value.
  destruct (first_value props key) as [v|]; [|reflexivity].
  destruct (String.eqb v ""); reflexivity.
Qed.

Lemma print_properties_spec : forall out_f props key,
  print_properties out_f (Some props) key
  = (map (EvWrite out_f)
       (map (fun v => property_line key (Some v)) (values_of props key)),
     Returned tt).
Proof.
  intros out_f props key. unfold print_properties, get_properties, values_of.
  induction props as [|p l IH]; [reflexivity|].
  cbn [get_properties_loop filter].
  destruct (String.eqb (name p) key); [|exact IH].
  cbn [print_properties_loop map]. mstep. now rewrite IH.
Qed.

(** C9, as the code has it.  With the properties collection present, each
    single-value line of the trailer ([FSTESTIMG], [FSTESTPRJ], [FSTESTCFG],
    [FSTESTSET], [FSTESTEXC], [FSTESTOPT], [GCE ID]) is printed only if the
    first value of its property is present and not empty, and there is one
    [FSTESTVER] line for every [FSTESTVER] entry, in insertion order,
    whatever its value, the empty string included. *)
Theorem print_trailer_lines :
  forall (out_f : handle) (props : Properties),
    print_trailer out_f (Some props)
    = (map (EvWrite out_f) (trailer_lines props), Returned tt).
Proof.
  intros out_f props. unfold print_trailer, trailer_lines.
  rewrite !print_property_line_spec, print_properties_spec.
  mstep. cbn [map]. rewrite !map_app. reflexivity.
Qed.

(** A record whose only [FSTESTVER] entry has an empty value: its line is
    printed all the same. *)
Lemma print_trailer_prints_empty_version :
  let props := [mkProperty "FSTESTVER" ""] in
  written (fst (print_trailer Stdout (Some props)))
  = [Py.NL; "FSTESTVER: " ++ Py.NL]
  /\ trailer_lines_all_nonempty props = [Py.NL]
  /\ written (fst (print_trailer Stdout (Some props)))
     <> trailer_lines_all_nonempty props.
Proof. repeat split; discriminate. Qed.

(** ** The order of the summaries *)

(** Lexical order on byte strings is transitive. *)
Lemma string_leb_trans : forall a b c : string,
  String.leb a b = true -> String.leb b c = true -> String.leb a c = true.
Proof.
  unfold String.leb.
  induction a as [|x a IH]; intros [|y b] [|z c]; simpl; try easy.
  unfold Ascii.compare.
  destruct (N.compare_spec (N_of_ascii x) (N_of_ascii y)) as [Hxy|Hxy|Hxy];
    destruct (N.compare_spec (N_of_ascii y) (N_of_ascii z)) as [Hyz|Hyz|Hyz];
    try easy;
    destruct (N.compare_spec (N_of_ascii x) (N_of_ascii z)) as [Hxz|Hxz|Hxz];
    try easy; try lia.
  apply IH.
Qed.

Lemma string_ltb_leb : forall a b : string,
  String.ltb b a = false <-> String.leb a b = true.
Proof.
  intros a b. unfold String.ltb, String.leb.
  rewrite (String.compare_antisym a b).
  destruct (String.compare b a); simpl; split; easy.
Qed.

Section SortedFacts.
Context {A K : Type} (key : A -> K) (ltb : K -> K -> bool).

#[local] Abbreviation key_le := (key_le key ltb).

Hypothesis ltb_asym : forall a b, ltb a b = true -> ltb b a = false.
Hypothesis key_le_trans : forall x y z, key_le x y -> key_le y z -> key_le x z.

Lemma insert_Permutation : forall x l,
  Permutation (Py.insert key ltb x l) (x :: l).
Proof.
  intros x l; induction l as [|y l IH]; simpl; [reflexivity|].
  destruct (ltb (key y) (key x)); [|reflexivity].
  rewrite IH. apply perm_swap.
Qed.

Lemma sorted_Permutation : forall l, Permutation (Py.sorted key ltb l) l.
Proof.
  induction l as [|x l IH]; simpl; [reflexivity|].
  rewrite insert_Permutation. now constructor.
Qed.

Lemma insert_HdRel : forall x y l,
  key_le y x -> HdRel key_le y l -> HdRel key_le y (Py.insert key ltb x l).
Proof.
  intros x y l Hyx Hhd. destruct l as [|z l]; simpl.
  - now constructor.
  - destruct (ltb (key z) (key x)); constructor; [|assumption].
    now inversion Hhd.
Qed.

Lemma insert_Sorted : forall x l,
  Sorted key_le l -> Sorted key_le (Py.insert key ltb x l).
Proof.
  intros x l; induction l as [|y l IH]; intro Hs; simpl.
  - repeat constructor.
  - destruct (ltb (key y) (key x)) eqn:E.
    + inversion Hs; subst. constructor; [now apply IH|].
      apply insert_HdRel; [|assumption]. now apply ltb_asym.
    + constructor; [assumption|]. now constructor.
Qed.

Lemma sorted_StronglySorted : forall l,
  StronglySorted key_le (Py.sorted key ltb l).
Proof.
  intro l. apply Sorted_StronglySorted; [exact key_le_trans|].
  induction l as [|x l IH]; simpl; [constructor|now apply insert_Sorted].
Qed.

End SortedFacts.

Lemma StronglySorted_map : forall {A B} (R : A -> A -> Prop) (S : B -> B -> Prop)
    (f : A -> B) (l : list A),
  (forall x y, In x l -> In y l -> R x y -> S (f x) (f y)) ->
  StronglySorted R l -> StronglySorted S (map f l).
Proof.
  intros A B R S f l; induction l as [|x l IH]; intros H Hs; simpl;
    [constructor|].
  inversion Hs as [|? ? Hl Hall]; subst. constructor.
  - apply IH; [|assumption]. intros a b Ha Hb. apply H; now right.
  - rewrite Forall_forall in *. intros b Hb.
    apply in_map_iff in Hb as [a [<- Ha]].
    apply H; [now left | now right | now apply Hall].
Qed.

Lemma bind_inv : forall {A B} (m : M A) (k : A -> M B) t b,
  bind m k = (t, Returned b) ->
  exists t1 a, m = (t1, Returned a)
               /\ t = app t1 (fst (k a)) /\ snd (k a) = Returned b.
Proof.
  intros A B [t1 [a|e]] k t b H; [|discriminate].
  rewrite bind_Returned in H. inversion H; subst. now exists t1, a.
Qed.

Lemma written_app : forall t1 t2,
  written (app t1 t2) = app (written t1) (written t2).
Proof. intros. unfold written. apply flat_map_app. Qed.

Lemma check_for_ltm_flag : forall marker props props' ltm,
  check_for_ltm marker props = Returned (props', ltm) ->
  ltm = match marker with Some _ => true | None => false end.
Proof.
  intros [lines|] props props' ltm H; unfold check_for_ltm in H.
  - destruct (check_for_ltm_loop lines props); [|discriminate].
    now inversion H.
  - now inversion H.
Qed.

Section PlatformFacts.

Variable struct_time : Type.
Variable strptime : string -> option struct_time.
Variable mktime : struct_time -> option Z.

#[local] Abbreviation parse := (parse_timestamp struct_time strptime mktime).
#[local] Abbreviation sort_by := (sorted_reports struct_time strptime mktime).
#[local] Abbreviation run := (gen_results_summary struct_time strptime mktime).

#[local] Abbreviation timestamp_le :=
  (timestamp_le struct_time strptime mktime).

Lemma decorate_Returned : forall reports l,
  decorate struct_time strptime mktime reports = Returned l ->
  map snd l = reports
  /\ Forall (fun p => parse (timestamp (snd p)) = Returned (fst p)) l.
Proof.
  induction reports as [|ts reports IH]; intros l H; simpl in H.
  - inversion H; subst. split; constructor.
  - destruct (parse (timestamp ts)) as [k|] eqn:Ek; [|discriminate].
    destruct (decorate struct_time strptime mktime reports) as [l'|]; [|discriminate].
    inversion H; subst. destruct (IH l' eq_refl) as [Hm Hf].
    split; simpl; [now rewrite Hm | now constructor].
Qed.

Lemma sorted_reports_by_timestamp : forall reports order,
  sort_by false reports = Returned order ->
  Permutation order reports /\ StronglySorted timestamp_le order.
Proof.
  intros reports order H. unfold sorted_reports in H.
  destruct (decorate struct_time strptime mktime reports) as [l|] eqn:Ed; [|discriminate].
  inversion H; subst; clear H.
  apply decorate_Returned in Ed as [Hm Hf].
  pose proof (sorted_Permutation fst Z.ltb l) as Hp.
  split.
  - rewrite <- Hm. now apply Permutation_map.
  - apply StronglySorted_map with (R := key_le fst Z.ltb).
    + intros x y Hx Hy Hxy. rewrite Forall_forall in Hf.
      exists (fst x), (fst y). repeat split.
      * apply Hf. eapply Permutation_in; eauto.
      * apply Hf. eapply Permutation_in; eauto.
      * unfold key_le in Hxy. lia.
    + apply sorted_StronglySorted.
      * intros a b. lia.
      * unfold key_le. intros x y z. lia.
Qed.

Lemma sorted_reports_by_hostname : forall reports,
  exists order,
    sort_by true reports = Returned order
    /\ Permutation order reports /\ StronglySorted hostname_le order.
Proof.
  intro reports. eexists; split; [reflexivity|].
  set (l := map (fun ts => (hostname ts, ts)) reports).
  assert (Hm : map snd l = reports).
  { subst l. rewrite map_map. simpl. apply map_id. }
  assert (Hf : Forall (fun p => fst p = hostname (snd p)) l).
  { subst l. apply Forall_forall. intros p Hp.
    apply in_map_iff in Hp as [ts [<- _]]. reflexivity. }
  pose proof (sorted_Permutation fst String.ltb l) as Hp.
  split.
  - rewrite <- Hm. now apply Permutation_map.
  - apply StronglySorted_map with (R := key_le fst String.ltb).
    + intros x y Hx Hy Hxy. rewrite Forall_forall in Hf.
      unfold hostname_le.
      rewrite <- (Hf x), <- (Hf y) by (eapply Permutation_in; eauto).
      now apply string_ltb_leb.
    + apply sorted_StronglySorted.
      * intros a b Hab. apply string_ltb_leb.
        unfold String.ltb in Hab. unfold String.leb.
        now destruct (String.compare a b).
      * unfold key_le. intros x y z Hxy Hyz.
        apply string_ltb_leb. apply string_ltb_leb in Hxy, Hyz.
        eapply string_leb_trans; eauto.
Qed.

Lemma summary_loop_Returned : forall out_f verbose order nr t n,
  summary_loop out_f order verbose nr = (t, Returned n) ->
  written t = flat_map (summary_texts out_f verbose) order
  /\ n = nr + Z.of_nat (List.length order).
Proof.
  intros out_f verbose order; induction order as [|ts order IH];
    intros nr t n H; simpl in H.
  - inversion H; subst. split; [reflexivity | simpl; lia].
  - apply bind_inv in H as (t1 & [] & H1 & -> & H2).
    destruct (summary_loop out_f order verbose (nr + 1)) as [t2 o] eqn:E.
    simpl in H2; subst o. apply IH in E as [Ew ->].
    rewrite written_app. cbn [flat_map fst]. unfold summary_texts at 1.
    rewrite H1, Ew. split; [reflexivity|]. cbn [List.length]. lia.
Qed.

(** A run that returns has written the header, the summaries of the
    sorted suites, the totals and the trailer, in that order. *)
Lemma gen_results_summary_Returned :
  forall results_dir path_exists output_fn merge_fn verbose first rest t n,
    record_files results_dir = first :: rest ->
    run results_dir path_exists output_fn merge_fn verbose = (t, Returned n) ->
    exists props ltm order totals,
      check_for_ltm (ltm_run_stats results_dir) (child_Properties first)
      = Returned (props, ltm)
      /\ sort_by ltm (record_files results_dir) = Returned order
      /\ sum_testsuites (record_files results_dir) = Returned totals
      /\ written t
         = app (written (fst (print_header (out_handle output_fn) props)))
             (app (flat_map
                     (summary_texts (out_handle output_fn)
                        (if total_tests (record_files results_dir) <? 30
                         then true else verbose)) order)
                (totals_line totals
                   :: written (fst (print_trailer (out_handle output_fn)
                                      props))))
      /\ n = Z.of_nat (List.length order).
Proof.
  intros rd pe ofn mfn verbose first rest t n Hrec H.
  unfold gen_results_summary in H. rewrite Hrec in H. rewrite <- Hrec in H.
  apply bind_inv in H as (t0 & out_f & Hopen & -> & H).
  assert (Hout : out_f = out_handle ofn /\ written t0 = []).
  { destruct ofn; inversion Hopen; subst; now split. }
  destruct Hout as [-> Ht0].
  match type of H with
  | snd (?m) = _ => destruct m as [t' o'] eqn:E
  end.
  simpl in H; subst o'. cbn [fst].
  apply bind_inv in E as (t1 & [props ltm] & Hltm & -> & E).
  unfold lift in Hltm. inversion Hltm as [[Ht1 Hc]]; subst t1.
  match type of E with
  | snd (?m) = _ => destruct m as [t' o'] eqn:E'
  end.
  simpl in E; subst o'. cbn [fst].
  apply bind_inv in E' as (th & [] & Hhead & -> & E).
  match type of E with
  | snd (?m) = _ => destruct m as [t' o'] eqn:E'
  end.
  simpl in E; subst o'. cbn [fst].
  apply bind_inv in E' as (t2 & order & Hsort & -> & E).
  unfold lift in Hsort. inversion Hsort as [[Ht2 Hs]]; subst t2.
  match type of E with
  | snd (?m) = _ => destruct m as [t' o'] eqn:E'
  end.
  simpl in E; subst o'. cbn [fst].
  apply bind_inv in E' as (tl & nr & Hloop & -> & E).
  match type of E with
  | snd (?m) = _ => destruct m as [t' o'] eqn:E'
  end.
  simpl in E; subst o'. cbn [fst].
  apply bind_inv in E' as (t3 & totals & Hsum & -> & E).
  unfold lift in Hsum. inversion Hsum as [[Ht3 Hs3]]; subst t3.
  match type of E with
  | snd (?m) = _ => destruct m as [t' o'] eqn:E'
  end.
  simpl in E; subst o'. cbn [fst].
  apply bind_inv in E' as (tw & [] & Hw & -> & E).
  unfold write in Hw. inversion Hw; subst tw.
  match type of E with
  | snd (?m) = _ => destruct m as [t' o'] eqn:E'
  end.
  simpl in E; subst o'. cbn [fst].
  apply bind_inv in E' as (tt_ & [] & Htrail & -> & E).
  match type of E with
  | snd (?m) = _ => destruct m as [t' o'] eqn:E'
  end.
  simpl in E; subst o'. cbn [fst].
  apply bind_inv in E' as (tm & [] & Hmerge & -> & E).
  cbn in E. inversion E; subst n.
  assert (Hwm : written tm = []).
  { destruct mfn as [fn|]; [|now inversion Hmerge].
    unfold merge in Hmerge. destruct (pe fn); cbn in Hmerge;
      inversion Hmerge; reflexivity. }
  apply summary_loop_Returned in Hloop as [Hwl ->].
  exists props, ltm, order, totals. repeat split; try assumption.
  - repeat rewrite written_app. cbn [fst ret app].
    rewrite Ht0, Hwm, Hwl, Hhead, Htrail. cbn [fst written flat_map app].
    now rewrite app_nil_r.
Qed.

End PlatformFacts.

Lemma sorted_reports_Permutation :
  forall (struct_time : Type) (strptime : string -> option struct_time)
         (mktime : struct_time -> option Z) ltm reports order,
    sorted_reports struct_time strptime mktime ltm reports = Returned order ->
    Permutation order reports.
Proof.
  intros struct_time strptime mktime ltm reports order H. destruct ltm.
  - destruct (sorted_reports_by_hostname struct_time strptime mktime reports)
      as (o & Ho & Hp & _).
    congruence.
  - now apply sorted_reports_by_timestamp in H.
Qed.

(** In a run that returns, the summaries of the sorted suites are written
    one after the other. *)
Lemma gen_results_summary_summaries :
  forall (struct_time : Type) (strptime : string -> option struct_time)
         (mktime : struct_time -> option Z)
         (results_dir : ResultsDir) (path_exists : string -> bool)
         (output_fn merge_fn : option string) (verbose : bool)
         (t : list event) (n : Z),
    gen_results_summary struct_time strptime mktime
      results_dir path_exists output_fn merge_fn verbose = (t, Returned n) ->
    exists (order : list TestSuite) (before after : list string),
      sorted_reports struct_time strptime mktime (marker_present results_dir)
        (record_files results_dir) = Returned order
      /\ written t
         = app before
             (app (flat_map
                     (summary_texts (out_handle output_fn)
                        (if total_tests (record_files results_dir) <? 30
                         then true else verbose)) order) after).
Proof.
  intros struct_time strptime mktime rd pe ofn mfn verbose t n H.
  destruct (record_files rd) as [|first rest] eqn:Hrec.
  - unfold gen_results_summary in H. rewrite Hrec in H. inversion H; subst.
    exists [], [], []. split; [|reflexivity].
    unfold marker_present. now destruct (ltm_run_stats rd).
  - rewrite <- Hrec.
    destruct (gen_results_summary_Returned _ _ _ _ _ _ _ _ _ _ _ _ Hrec H)
      as (props & ltm & order & totals & Hltm & Hsort & _ & Hw & _).
    apply check_for_ltm_flag in Hltm. subst ltm.
    exists order. do 2 eexists. split; [exact Hsort | exact Hw].
Qed.

(** ** Runs that return *)

Lemma print_property_line_returns : forall out_f props key,
  exists t, print_property_line out_f props key = (t, Returned tt).
Proof.
  intros out_f props key. unfold print_property_line.
  destruct (get_property props key) as [v|]; [|now eexists].
  destruct (negb (String.eqb v "")); now eexists.
Qed.

Lemma print_header_returns : forall out_f props,
  exists t, print_header out_f props = (t, Returned tt).
Proof.
  intros out_f props. unfold print_header.
  repeat match goal with
  | |- context [print_property_line ?h ?p ?k] =>
      let t := fresh "t" in let E := fresh "E" in
      destruct (print_property_line_returns h p k) as [t E]; rewrite E; clear E
  end.
  mstep. now eexists.
Qed.

Lemma print_verbose_loop_returns : forall out_f tcs,
  exists t, print_verbose_loop out_f tcs = (t, Returned tt).
Proof.
  intros out_f tcs; induction tcs as [|tc tcs [t IH]]; simpl; [now eexists|].
  rewrite IH. mstep. now eexists.
Qed.

Lemma print_tests_returns : forall out_f ts result_type type_label,
  exists t, print_tests out_f ts result_type type_label = (t, Returned tt).
Proof.
  intros out_f ts result_type type_label.
  unfold print_tests. rewrite print_tests_loop_spec.
  destruct (listed_names (testcases ts) result_type); mstep; now eexists.
Qed.

Lemma print_properties_returns : forall out_f props key,
  exists t, print_properties out_f (Some props) key = (t, Returned tt).
Proof.
  intros out_f props key. rewrite print_properties_spec. now eexists.
Qed.

Lemma print_trailer_returns : forall out_f props,
  exists t, print_trailer out_f (Some props) = (t, Returned tt).
Proof.
  intros out_f props. unfold print_trailer.
  destruct (print_properties_returns out_f props "FSTESTVER") as [tv Ev].
  rewrite Ev.
  repeat match goal with
  | |- context [print_property_line ?h ?p ?k] =>
      let t := fresh "t" in let E := fresh "E" in
      destruct (print_property_line_returns h p k) as [t E]; rewrite E; clear E
  end.
  mstep. now eexists.
Qed.

Lemma print_summary_returns : forall out_f ts verbose,
  tests ts <> None ->
  exists t, print_summary out_f ts verbose = (t, Returned tt).
Proof.
  intros out_f ts verbose Hn. unfold print_summary.
  destruct (tests ts) as [n|]; [clear Hn|congruence].
  destruct (print_tests_returns out_f ts Failure "Failures") as [tf Ef].
  destruct (print_tests_returns out_f ts Error "Errors") as [te Ee].
  destruct (print_verbose_loop_returns out_f (testcases ts)) as [tv Ev].
  rewrite Ef, Ee, Ev.
  destruct (failures ts >? 0), (errors ts >? 0), (skipped ts >? 0), verbose;
    mstep; now eexists.
Qed.

Lemma summary_loop_returns :
  forall out_f verbose order nr,
    Forall (fun ts => tests ts <> None) order ->
    exists t, summary_loop out_f order verbose nr
              = (t, Returned (nr + Z.of_nat (List.length order))).
Proof.
  intros out_f verbose order.
  induction order as [|ts order IH]; intros nr Hall; simpl summary_loop.
  - exists []. unfold ret. do 2 f_equal. simpl. lia.
  - inversion Hall as [|? ? Hts Hrest]; subst.
    destruct (print_summary_returns out_f ts verbose Hts) as [t1 E1].
    destruct (IH (nr + 1) Hrest) as [t2 E2]. rewrite E1, E2. mstep.
    eexists. do 2 f_equal. cbn [List.length]. lia.
Qed.

Lemma sum_testsuites_returns : forall testsuites,
  Forall (fun ts => tests ts <> None) testsuites ->
  exists totals, sum_testsuites testsuites = Returned totals.
Proof.
  intro testsuites. unfold sum_testsuites.
  generalize (0, 0, 0, 0, 0%Q). induction testsuites as [|ts l IH];
    intros acc Hall; simpl; [now eexists|].
  inversion Hall as [|? ? Hts Hrest]; subst.
  destruct acc as [[[[a b] c] d] e].
  destruct (tests ts) as [n|]; [|congruence]. now apply IH.
Qed.

Lemma check_for_ltm_loop_returns : forall lines props,
  Forall (fun line => Py.split_colon_space line <> None) lines ->
  exists props', check_for_ltm_loop lines (Some props) = Returned (Some props').
Proof.
  induction lines as [|line lines IH]; intros props Hall; simpl;
    [now eexists|].
  inversion Hall as [|? ? Hline Hrest]; subst.
  destruct (Py.split_colon_space line) as [[key value]|]; [|congruence].
  simpl. now apply IH.
Qed.

Lemma decorate_returns :
  forall (struct_time : Type) (strptime : string -> option struct_time)
         (mktime : struct_time -> option Z) reports,
    Forall (fun ts => exists k,
              parse_timestamp struct_time strptime mktime (timestamp ts)
              = Returned k) reports ->
    exists l, decorate struct_time strptime mktime reports = Returned l.
Proof.
  intros struct_time strptime mktime reports Hall.
  induction Hall as [|ts reports [k Hk] _ [l IH]]; simpl; [now eexists|].
  rewrite Hk, IH. now eexists.
Qed.

Lemma gen_results_summary_returns :
  forall (struct_time : Type) (strptime : string -> option struct_time)
         (mktime : struct_time -> option Z)
         (results_dir : ResultsDir) (path_exists : string -> bool)
         (output_fn merge_fn : option string) (verbose : bool),
    well_formed struct_time strptime mktime results_dir ->
    exists t,
      gen_results_summary struct_time strptime mktime
        results_dir path_exists output_fn merge_fn verbose
      = (t, Returned (Z.of_nat (List.length (record_files results_dir)))).
Proof.
  intros struct_time strptime mktime rd pe ofn mfn verbose
    [(first & rest & props & Hrec & Hprops) [Htests Hkeys]].
  unfold gen_results_summary. rewrite Hrec. rewrite <- Hrec. rewrite Hprops.
  assert (Hltm : exists props' ltm,
             check_for_ltm (ltm_run_stats rd) (Some props)
             = Returned (Some props', ltm)
             /\ ltm = marker_present rd).
  { unfold check_for_ltm, marker_present.
    destruct (ltm_run_stats rd) as [lines|]; [|now eexists; eexists].
    destruct (check_for_ltm_loop_returns lines props Hkeys) as [p' Ep].
    rewrite Ep. now eexists; eexists. }
  destruct Hltm as (props' & ltm & Eltm & Hflag). rewrite Eltm.
  assert (Hsort : exists order,
             sorted_reports struct_time strptime mktime ltm (record_files rd)
             = Returned order).
  { subst ltm. unfold marker_present, sorted_reports.
    destruct (ltm_run_stats rd); [now eexists|].
    destruct (decorate_returns _ _ _ _ Hkeys) as [l El]. rewrite El.
    now eexists. }
  destruct Hsort as [order Esort].
  pose proof (sorted_reports_Permutation _ _ _ _ _ _ Esort) as Hperm.
  assert (Horder : Forall (fun ts => tests ts <> None) order).
  { rewrite Forall_forall in *. intros ts Hin. apply Htests.
    eapply Permutation_in; eauto. }
  destruct (summary_loop_returns (out_handle ofn)
              (if total_tests (record_files rd) <? 30 then true else verbose)
              order 0 Horder) as [tl El].
  destruct (sum_testsuites_returns _ Htests) as [totals Et].
  destruct (print_header_returns (out_handle ofn) (Some props')) as [th Eh].
  rewrite (Permutation_length Hperm) in El.
  assert (Hmerge : exists tm,
             match mfn with
             | Some fn => merge pe fn (List.length order)
             | None => ret tt
             end = (tm, Returned tt)).
  { destruct mfn as [fn|]; [|now eexists].
    unfold merge. destruct (pe fn); mstep; now eexists. }
  destruct Hmerge as [tm Em]. unfold ret in Em.
  destruct (print_trailer_returns (out_handle ofn) props') as [tr Etr].
  destruct ofn as [fn|]; cbn [out_handle] in *;
    unfold lift; mstep; rewrite Eh; mstep; rewrite Esort; mstep;
    rewrite El; mstep; rewrite Et; mstep;
    rewrite Etr; mstep; rewrite Em; mstep; now eexists.
Qed.

(** C4. A run on well-formed records returns, and whenever a run returns,
    the summaries of the suites are written one after the other, in an
    order that is a rearrangement of the loaded suites; without the marker
    file the order is ascending in the parsed timestamp, with the marker
    file it is ascending in the lexical order of the hostnames, whatever the
    timestamps are. *)
Theorem summaries_in_key_order :
  forall (struct_time : Type) (strptime : string -> option struct_time)
         (mktime : struct_time -> option Z)
         (results_dir : ResultsDir) (path_exists : string -> bool)
         (output_fn merge_fn : option string) (verbose : bool),
    (well_formed struct_time strptime mktime results_dir ->
     exists t,
       gen_results_summary struct_time strptime mktime
         results_dir path_exists output_fn merge_fn verbose
       = (t, Returned (Z.of_nat (List.length (record_files results_dir)))))
    /\ forall (t : list event) (n : Z),
        gen_results_summary struct_time strptime mktime
          results_dir path_exists output_fn merge_fn verbose
        = (t, Returned n) ->
        exists (order : list TestSuite) (before after : list string),
          Permutation order (record_files results_dir)
          /\ written t
             = app before
                 (app (flat_map
                         (summary_texts (out_handle output_fn)
                            (if total_tests (record_files results_dir) <? 30
                             then true else verbose)) order) after)
          /\ (ltm_run_stats results_dir = None ->
              StronglySorted (timestamp_le struct_time strptime mktime) order)
          /\ (ltm_run_stats results_dir <> None ->
              StronglySorted hostname_le order).
Proof.
  intros struct_time strptime mktime rd pe ofn mfn verbose.
  split; [apply gen_results_summary_returns|].
  intros t n H.
  destruct (gen_results_summary_summaries _ _ _ _ _ _ _ _ _ _ H)
    as (order & before & after & Hsort & Hw).
  exists order, before, after.
  split; [eapply sorted_reports_Permutation; eauto|].
  split; [exact Hw|]. unfold marker_present in Hsort.
  split; intro Hm.
  - rewrite Hm in Hsort. now apply sorted_reports_by_timestamp in Hsort.
  - destruct (ltm_run_stats rd); [|congruence].
    destruct (sorted_reports_by_hostname struct_time strptime mktime
                (record_files rd)) as (o & Ho & _ & Hs).
    congruence.
Qed.

Lemma small_dir_well_formed :
  well_formed Utc.tm Utc.utc_strptime Utc.utc_mktime small_dir.
Proof.
  split; [|split].
  - now exists suite_4k, [suite_1k],
      [mkProperty "TESTRUNID" "ltm-20190302"; mkProperty "KERNEL" "5.0.0";
       mkProperty "FSTESTVER" "e2fsprogs v1.45";
       mkProperty "FSTESTCFG" "4k"; mkProperty "TESTCFG" "ext4/4k"].
  - repeat constructor; discriminate.
  - repeat constructor; eexists; vm_compute; reflexivity.
Defined.

(** The small run, sorted by timestamp: [ext4/1k] started first. *)
Lemma summaries_in_key_order_witness :
  (exists t,
      Utc.gen_results_summary small_dir no_path None None false
      = (t, Returned 2))
  /\ exists (order : list TestSuite) (before after : list string),
      Permutation order [suite_4k; suite_1k]
      /\ written (fst (Utc.gen_results_summary small_dir no_path None None
                         false))
         = app before
             (app (flat_map (summary_texts Stdout true) order) after)
      /\ (ltm_run_stats small_dir = None ->
          StronglySorted
            (timestamp_le Utc.tm Utc.utc_strptime Utc.utc_mktime) order)
      /\ (ltm_run_stats small_dir <> None ->
          StronglySorted hostname_le order).
Proof.
  split.
  - apply (proj1 (summaries_in_key_order Utc.tm Utc.utc_strptime
                    Utc.utc_mktime small_dir no_path None None false)).
    exact small_dir_well_formed.
  - apply (proj2 (summaries_in_key_order Utc.tm Utc.utc_strptime
                    Utc.utc_mktime small_dir no_path None None false)
             (fst (Utc.gen_results_summary small_dir no_path None None false))
             2).
    vm_compute. reflexivity.
Defined.

(** C5. When the [tests] counters of the loaded suites add up to less than
    30 the run is the run with the verbose flag set, whatever the caller
    passed, and every suite is shown verbosely; from 30 on every suite is
    shown with the flag of the caller. *)
Theorem verbose_forced_below_30 :
  forall (struct_time : Type) (strptime : string -> option struct_time)
         (mktime : struct_time -> option Z)
         (results_dir : ResultsDir) (path_exists : string -> bool)
         (output_fn merge_fn : option string) (verbose : bool),
    let run := gen_results_summary struct_time strptime mktime
                 results_dir path_exists output_fn merge_fn in
    let shown_with (flag : bool) :=
      forall t n, run verbose = (t, Returned n) ->
        exists (order : list TestSuite) (before after : list string),
          Permutation order (record_files results_dir)
          /\ written t
             = app before
                 (app (flat_map (summary_texts (out_handle output_fn) flag)
                         order) after) in
    (total_tests (record_files results_dir) < 30 ->
     run verbose = run true /\ shown_with true)
    /\ (30 <= total_tests (record_files results_dir) -> shown_with verbose).
Proof.
  intros struct_time strptime mktime rd pe ofn mfn verbose run shown_with.
  assert (Hshown : forall t n, run verbose = (t, Returned n) ->
            exists order before after,
              Permutation order (record_files rd)
              /\ written t
                 = app before
                     (app (flat_map
                             (summary_texts (out_handle ofn)
                                (if total_tests (record_files rd) <? 30
                                 then true else verbose)) order) after)).
  { intros t n H.
    destruct (gen_results_summary_summaries struct_time strptime mktime
                rd pe ofn mfn verbose t n H)
      as (order & before & after & Hsort & Hw).
    exists order, before, after.
    split; [eapply sorted_reports_Permutation; eauto | exact Hw]. }
  split; intro Hlt.
  - assert (E : (total_tests (record_files rd) <? 30) = true)
      by now apply Z.ltb_lt.
    split.
    + subst run. unfold gen_results_summary. now rewrite E.
    + intros t n H. specialize (Hshown t n H). now rewrite E in Hshown.
  - assert (E : (total_tests (record_files rd) <? 30) = false)
      by now apply Z.ltb_ge.
    intros t n H. specialize (Hshown t n H). now rewrite E in Hshown.
Qed.

(** The small run has 6 tests and is shown verbosely; the large one has
    250 and keeps the flag of the caller. *)
Lemma verbose_forced_below_30_witness :
  (Utc.gen_results_summary small_dir no_path None None false
   = Utc.gen_results_summary small_dir no_path None None true)
  /\ exists (order : list TestSuite) (before after : list string),
      Permutation order (record_files large_dir)
      /\ written (fst (Utc.gen_results_summary large_dir no_path None None
                         false))
         = app before
             (app (flat_map (summary_texts Stdout false) order) after).
Proof.
  split.
  - apply (proj1 (verbose_forced_below_30 Utc.tm Utc.utc_strptime
                    Utc.utc_mktime small_dir no_path None None false)).
    vm_compute. reflexivity.
  - apply (proj2 (verbose_forced_below_30 Utc.tm Utc.utc_strptime
                    Utc.utc_mktime large_dir no_path None None false))
      with (n := 3).
    + vm_compute. discriminate.
    + vm_compute. reflexivity.
Defined.

(** ** More on removal *)

Lemma remove_keeps_other_names : forall key prop l,
  name prop = key ->
  filter (other_name key) (remove prop l) = filter (other_name key) l.
Proof.
  intros key prop l Hkey; induction l as [|p l IH]; [reflexivity|].
  cbn [remove]. destruct (Property_eqb p prop) eqn:E.
  - unfold Property_eqb in E. apply andb_prop in E as [E _].
    apply String.eqb_eq in E. cbn [filter]. unfold other_name at 2.
    rewrite E, Hkey, String.eqb_refl. reflexivity.
  - cbn [filter]. now rewrite IH.
Qed.

Lemma remove_properties_loop_keeps_other_names : forall fuel key i l,
  filter (other_name key) (remove_properties_loop fuel key i l)
  = filter (other_name key) l.
Proof.
  induction fuel as [|fuel IH]; intros key i l; [reflexivity|].
  cbn [remove_properties_loop].
  destruct (nth_error l i) as [prop|]; [|reflexivity].
  destruct (String.eqb_spec (name prop) key) as [Heq|Hne]; rewrite IH;
    [now apply remove_keeps_other_names | reflexivity].
Qed.

(** X1. [remove_properties] never touches the entries of another name:
    whatever the collection, they are all still there afterwards, in the
    same order. *)
Theorem remove_properties_keeps_other_names :
  forall (l : Properties) (key : string),
    option_map (filter (other_name key)) (remove_properties (Some l) key)
    = Some (filter (other_name key) l).
Proof.
  intros l key. unfold remove_properties. cbn [option_map].
  now rewrite remove_properties_loop_keeps_other_names.
Qed.

Lemma remove_after_prefix : forall key p pre suf,
  Forall (fun q => name q <> key) pre ->
  name p = key ->
  remove p (app pre (p :: suf)) = app pre suf.
Proof.
  intros key p pre suf Hpre Hp; induction Hpre as [|q pre Hq _ IH]; cbn.
  - unfold Property_eqb. now rewrite !String.eqb_refl.
  - unfold Property_eqb at 1.
    destruct (String.eqb_spec (name q) (name p)) as [E|_]; [congruence|].
    cbn. now rewrite IH.
Qed.

Lemma nth_error_after_prefix : forall {A} (pre suf : list A),
  nth_error (app pre suf) (List.length pre) = nth_error suf 0.
Proof.
  intros A pre suf. rewrite nth_error_app2 by lia. now rewrite Nat.sub_diag.
Qed.

Lemma remove_properties_loop_filter : forall fuel key suf pre,
  (List.length suf <= fuel)%nat ->
  Forall (fun q => name q <> key) pre ->
  no_adjacent key suf = true ->
  remove_properties_loop fuel key (List.length pre) (app pre suf)
  = app pre (filter (other_name key) suf).
Proof.
  induction fuel as [|fuel IH]; intros key suf pre Hlen Hpre Hadj.
  - destruct suf; [reflexivity | cbn in Hlen; lia].
  - cbn [remove_properties_loop]. rewrite nth_error_after_prefix.
    destruct suf as [|p suf]; [reflexivity|]. cbn [nth_error filter].
    unfold other_name at 1.
    destruct (String.eqb_spec (name p) key) as [Hp|Hp]; cbn [negb].
    + rewrite (remove_after_prefix key) by assumption.
      destruct suf as [|q suf].
      * rewrite remove_properties_loop_done; [reflexivity|].
        rewrite length_app. cbn. lia.
      * cbn [no_adjacent] in Hadj. apply andb_prop in Hadj as [Hpq Hadj].
        rewrite Hp, String.eqb_refl in Hpq. cbn in Hpq.
        apply negb_true_iff in Hpq. apply String.eqb_neq in Hpq.
        assert (Hq : other_name key q = true).
        { unfold other_name. apply negb_true_iff. now apply String.eqb_neq. }
        specialize (IH key suf (app pre [q])).
        rewrite length_app in IH. cbn [List.length] in IH.
        rewrite Nat.add_1_r, <- app_assoc in IH. cbn [app] in IH.
        rewrite IH.
        -- cbn [filter]. rewrite Hq. now rewrite <- app_assoc.
        -- cbn in Hlen. lia.
        -- apply Forall_app. split; [assumption | now constructor].
        -- destruct suf; [reflexivity|]. cbn [no_adjacent] in Hadj.
           now apply andb_prop in Hadj as [_ Hadj].
    + specialize (IH key suf (app pre [p])).
      rewrite length_app in IH. cbn [List.length] in IH.
      rewrite Nat.add_1_r, <- app_assoc in IH. cbn [app] in IH.
      rewrite IH.
      * now rewrite <- app_assoc.
      * cbn in Hlen. lia.
      * apply Forall_app. split; [assumption | now constructor].
      * destruct suf; [reflexivity|]. cbn [no_adjacent] in Hadj.
        now apply andb_prop in Hadj as [_ Hadj].
Qed.

Lemma remove_properties_filter : forall l key,
  no_adjacent key l = true ->
  remove_properties (Some l) key = Some (filter (other_name key) l).
Proof.
  intros l key Hadj. unfold remove_properties. f_equal.
  now apply (remove_properties_loop_filter (List.length l) key l []).
Qed.

(** X2. When no two neighbouring entries both carry the name, the loop of
    [remove_properties] visits every entry of that name: the result is the
    collection without them, the other entries in their order. *)
Theorem remove_properties_removes_all :
  forall (l : Properties) (key : string),
    no_adjacent key l = true ->
    remove_properties (Some l) key = Some (filter (other_name key) l)
    /\ get_property (remove_properties (Some l) key) key = None.
Proof.
  intros l key Hadj. rewrite remove_properties_filter by assumption.
  split; [reflexivity|]. cbn [get_property].
  induction l as [|p l IH]; [reflexivity|]. cbn [filter].
  assert (Hl : no_adjacent key l = true).
  { destruct l; [reflexivity|]. cbn [no_adjacent] in Hadj.
    now apply andb_prop in Hadj as [_ Hadj]. }
  unfold other_name at 1.
  destruct (String.eqb (name p) key) eqn:E; cbn [negb]; [now apply IH|].
  cbn [get_property_loop]. rewrite E. now apply IH.
Qed.

Lemma remove_properties_removes_all_witness :
  let l := [mkProperty "GCE ID" "7731"; mkProperty "KERNEL" "5.0.0";
            mkProperty "GCE ID" "7732"] in
  remove_properties (Some l) "GCE ID" = Some (filter (other_name "GCE ID") l)
  /\ get_property (remove_properties (Some l) "GCE ID") "GCE ID" = None.
Proof.
  apply (remove_properties_removes_all
           [mkProperty "GCE ID" "7731"; mkProperty "KERNEL" "5.0.0";
            mkProperty "GCE ID" "7732"] "GCE ID").
  reflexivity.
Defined.

(** ** The two lookups *)

Lemma get_properties_loop_yields : forall props key,
  yields (get_properties_loop props key) = map Some (values_of props key)
  /\ ending (get_properties_loop props key) = Returned tt.
Proof.
  intros props key; unfold values_of.
  induction props as [|p l [IHy IHe]]; [now split|].
  cbn [get_properties_loop filter].
  destruct (String.eqb (name p) key); cbn; [rewrite IHy|]; now split.
Qed.

(** X3. On a collection that is present, [get_properties] yields the values
    of the entries of that name in insertion order and then stops normally,
    and [get_property] returns the first value it yields, [None] when it
    yields nothing. *)
Theorem get_property_first_of_get_properties :
  forall (props : Properties) (key : string),
    yields (get_properties (Some props) key) = map Some (values_of props key)
    /\ ending (get_properties (Some props) key) = Returned tt
    /\ get_property (Some props) key
       = match yields (get_properties (Some props) key) with
         | first :: _ => first
         | [] => None
         end.
Proof.
  intros props key. cbn [get_properties get_property].
  destruct (get_properties_loop_yields props key) as [Hy He].
  repeat split; try assumption. rewrite Hy. clear Hy He. unfold values_of.
  induction props as [|p l IH]; [reflexivity|].
  cbn [get_property_loop filter].
  destruct (String.eqb (name p) key); [reflexivity | exact IH].
Qed.

(** ** The marker file on a collection with unique names *)

Lemma names_unique_no_adjacent : forall l key,
  names_unique l -> no_adjacent key l = true.
Proof.
  unfold names_unique. intros l key; induction l as [|a l IH]; intro Hnd;
    [reflexivity|].
  cbn [map] in Hnd. inversion Hnd as [|? ? Hnotin Hnd']; subst.
  destruct l as [|b l]; [reflexivity|].
  change (no_adjacent key (a :: b :: l))
    with (negb (String.eqb (name a) key && String.eqb (name b) key)
          && no_adjacent key (b :: l)).
  rewrite (IH Hnd'), andb_true_r. apply negb_true_iff.
  destruct (String.eqb_spec (name a) key) as [Ha|]; [|reflexivity].
  destruct (String.eqb_spec (name b) key) as [Hb|]; [|reflexivity].
  exfalso. apply Hnotin. left. congruence.
Qed.

Lemma names_unique_filter : forall (f : Property -> bool) l,
  names_unique l -> names_unique (filter f l).
Proof.
  unfold names_unique. intros f l; induction l as [|a l IH]; intro Hnd;
    [constructor|].
  cbn [map] in Hnd. inversion Hnd as [|? ? Hnotin Hnd']; subst.
  cbn [filter]. destruct (f a); [|now apply IH].
  cbn [map]. constructor; [|now apply IH].
  intro Hin. apply Hnotin. apply in_map_iff in Hin as [p [Hp Hin]].
  apply filter_In in Hin as [Hin _]. apply in_map_iff. now exists p.
Qed.

Lemma names_unique_override : forall l k v,
  names_unique l ->
  names_unique (app (filter (other_name k) l) [mkProperty k v]).
Proof.
  intros l k v Hnd. unfold names_unique. rewrite map_app. cbn [map name].
  apply (Permutation_NoDup (l := k :: map name (filter (other_name k) l))).
  - apply Permutation_cons_append.
  - constructor; [|now apply names_unique_filter].
    intro Hin. apply in_map_iff in Hin as [p [Hp Hin]].
    apply filter_In in Hin as [_ Hother]. unfold other_name in Hother.
    rewrite Hp, String.eqb_refl in Hother. discriminate.
Qed.

Lemma get_property_loop_app : forall a b key,
  get_property_loop (app a b) key
  = match get_property_loop a key with
    | Some v => Some v
    | None => get_property_loop b key
    end.
Proof.
  intros a b key; induction a as [|p a IH]; [reflexivity|].
  cbn [app get_property_loop]. now destruct (String.eqb (name p) key).
Qed.

Lemma get_property_loop_filter_other : forall l k key,
  get_property_loop (filter (other_name k) l) key
  = if String.eqb k key then None else get_property_loop l key.
Proof.
  intros l k key; induction l as [|p l IH].
  - cbn. now destruct (String.eqb k key).
  - cbn [filter get_property_loop]. unfold other_name at 1.
    destruct (String.eqb_spec (name p) k) as [Hp|Hp]; cbn [negb].
    + rewrite IH. subst k.
      now destruct (String.eqb (name p) key).
    + cbn [get_property_loop]. rewrite IH.
      destruct (String.eqb_spec (name p) key) as [Hk|Hk]; [|reflexivity].
      destruct (String.eqb_spec k key) as [Hkk|]; [congruence | reflexivity].
Qed.

Lemma filter_filter : forall {A} (f g : A -> bool) l,
  filter f (filter g l) = filter (fun x => g x && f x) l.
Proof.
  intros A f g l; induction l as [|a l IH]; [reflexivity|].
  cbn [filter]. destruct (g a); cbn [andb filter]; [|exact IH].
  destruct (f a); now rewrite IH.
Qed.

(** One line of the marker file, on a collection with unique names. *)
Lemma check_for_ltm_loop_step : forall line rest props k v,
  parse_line line = Some (k, v) ->
  names_unique props ->
  check_for_ltm_loop (line :: rest) (Some props)
  = check_for_ltm_loop rest
      (Some (app (filter (other_name k) props) [mkProperty k v])).
Proof.
  intros line rest props k v Hparse Hnd. unfold parse_line in Hparse.
  cbn [check_for_ltm_loop].
  destruct (Py.split_colon_space line) as [[key value]|]; [|discriminate].
  inversion Hparse; subst; clear Hparse.
  rewrite remove_properties_filter by now apply names_unique_no_adjacent.
  reflexivity.
Qed.

Lemma parse_line_well_formed : forall line,
  Py.split_colon_space line <> None -> exists k v, parse_line line = Some (k, v).
Proof.
  intros line H. unfold parse_line.
  destruct (Py.split_colon_space line) as [[k v]|]; [|congruence].
  now eexists; eexists.
Qed.

(** The loop over the lines, in closed form. *)
Lemma check_for_ltm_loop_unique : forall lines props,
  names_unique props ->
  Forall (fun line => Py.split_colon_space line <> None) lines ->
  let props' := app (filter (fun p => negb (marker_key lines p)) props)
                  (marker_props lines) in
  check_for_ltm_loop lines (Some props) = Returned (Some props')
  /\ names_unique props'
  /\ forall key,
       get_property_loop props' key
       = match marker_value lines key with
         | Some v => Some v
         | None => get_property_loop props key
         end.
Proof.
  induction lines as [|line rest IH]; intros props Hnd Hwf.
  - cbn. rewrite app_nil_r.
    assert (E : filter (fun _ : Property => true) props = props).
    { clear. induction props as [|p l IH]; cbn; [reflexivity | now rewrite IH]. }
    rewrite E. now repeat split.
  - inversion Hwf as [|? ? Hline Hrest]; subst.
    destruct (parse_line_well_formed line Hline) as (k & v & Hparse).
    cbn zeta. rewrite (check_for_ltm_loop_step line rest props k v Hparse Hnd).
    destruct (IH (app (filter (other_name k) props) [mkProperty k v])
                (names_unique_override props k v Hnd) Hrest)
      as (Hloop & Hnd' & Hget).
    assert (Hsame : app (filter (fun p => negb (marker_key (line :: rest) p))
                           props) (marker_props (line :: rest))
                    = app (filter (fun p => negb (marker_key rest p))
                             (app (filter (other_name k) props)
                                [mkProperty k v])) (marker_props rest)).
    { cbn [marker_props]. rewrite Hparse. rewrite filter_app, <- app_assoc.
      f_equal. rewrite filter_filter. apply filter_ext. intro p.
      unfold marker_key at 1. cbn [existsb]. rewrite Hparse.
      fold (marker_key rest p). unfold other_name.
      rewrite negb_orb. f_equal. f_equal. apply String.eqb_sym. }
    rewrite Hsame. repeat split; try assumption.
    intro key. rewrite Hget. cbn [marker_value].
    destruct (marker_value rest key); [reflexivity|]. rewrite Hparse.
    rewrite get_property_loop_app, get_property_loop_filter_other.
    cbn [get_property_loop name value].
    destruct (String.eqb k key); [reflexivity|].
    now destruct (get_property_loop props key).
Qed.

Lemma check_for_ltm_unique : forall lines props,
  names_unique props ->
  Forall (fun line => Py.split_colon_space line <> None) lines ->
  check_for_ltm (Some lines) (Some props)
  = Returned
      (Some (kept_in_ltm
               (app (filter (fun p => negb (marker_key lines p)) props)
                  (marker_props lines))), true).
Proof.
  intros lines props Hnd Hwf.
  destruct (check_for_ltm_loop_unique lines props Hnd Hwf) as (Hloop & Hnd' & _).
  unfold check_for_ltm. rewrite Hloop.
  rewrite remove_properties_filter by now apply names_unique_no_adjacent.
  rewrite remove_properties_filter
    by now apply names_unique_no_adjacent, names_unique_filter.
  reflexivity.
Qed.

(** X4. On a collection with unique names and a marker file whose lines all
    hold the separator, [check_for_ltm] turns LTM mode on and leaves a
    collection with unique names in which [GCE ID] and [FSTESTCFG] are gone,
    every other key of the marker file has the value of its last line, and
    every other property keeps its value. *)
Theorem check_for_ltm_last_line_wins :
  forall (lines : list string) (props : Properties),
    names_unique props ->
    Forall (fun line => Py.split_colon_space line <> None) lines ->
    exists props' : Properties,
      check_for_ltm (Some lines) (Some props) = Returned (Some props', true)
      /\ names_unique props'
      /\ forall key : string,
           get_property (Some props') key
           = if dropped_in_ltm key then None
             else match marker_value lines key with
                  | Some v => Some v
                  | None => get_property (Some props) key
                  end.
Proof.
  intros lines props Hnd Hwf.
  eexists. split; [now apply check_for_ltm_unique|].
  destruct (check_for_ltm_loop_unique lines props Hnd Hwf) as (_ & Hnd' & Hget).
  split; [now apply names_unique_filter, names_unique_filter|].
  intro key. cbn [get_property]. unfold kept_in_ltm, dropped_in_ltm.
  rewrite !get_property_loop_filter_other, Hget.
  rewrite (String.eqb_sym key "GCE ID"), (String.eqb_sym key "FSTESTCFG").
  destruct (String.eqb "FSTESTCFG" key); [now rewrite orb_true_r|].
  destruct (String.eqb "GCE ID" key); reflexivity.
Qed.

Lemma check_for_ltm_last_line_wins_witness :
  exists props' : Properties,
    check_for_ltm
      (Some [marker_line "CMDLINE" "-c ext4"; marker_line "GCE ID" "7731";
             marker_line "CMDLINE" "-c ext4 -g auto"])
      (Some [mkProperty "KERNEL" "5.0.0"; mkProperty "FSTESTCFG" "4k"])
    = Returned (Some props', true)
    /\ names_unique props'
    /\ forall key : string,
         get_property (Some props') key
         = if dropped_in_ltm key then None
           else match marker_value
                        [marker_line "CMDLINE" "-c ext4";
                         marker_line "GCE ID" "7731";
                         marker_line "CMDLINE" "-c ext4 -g auto"] key with
                | Some v => Some v
                | None =>
                    get_property
                      (Some [mkProperty "KERNEL" "5.0.0";
                             mkProperty "FSTESTCFG" "4k"]) key
                end.
Proof.
  apply (check_for_ltm_last_line_wins
           [marker_line "CMDLINE" "-c ext4"; marker_line "GCE ID" "7731";
            marker_line "CMDLINE" "-c ext4 -g auto"]
           [mkProperty "KERNEL" "5.0.0"; mkProperty "FSTESTCFG" "4k"]).
  - unfold names_unique. cbn.
    repeat constructor; cbn; intuition discriminate.
  - repeat constructor; discriminate.
Defined.

Lemma marker_props_keys : forall lines,
  Forall (fun p => marker_key lines p = true) (marker_props lines).
Proof.
  induction lines as [|line rest IH]; [constructor|].
  assert (Hrest : Forall (fun p => marker_key (line :: rest) p = true)
                    (marker_props rest)).
  { eapply Forall_impl; [|exact IH]. intros p Hp. unfold marker_key in *.
    cbn [existsb]. rewrite Hp. apply orb_true_r. }
  cbn [marker_props]. destruct (parse_line line) as [[k v]|] eqn:Hparse;
    [|exact Hrest].
  apply Forall_app. split; [|exact Hrest].
  cbn [filter]. destruct (negb (marker_key rest (mkProperty k v)));
    constructor; [|constructor].
  unfold marker_key. cbn [existsb]. rewrite Hparse. cbn [name].
  now rewrite String.eqb_refl.
Qed.

Lemma filter_none : forall {A} (f : A -> bool) l,
  Forall (fun x => f x = false) l -> filter f l = [].
Proof.
  intros A f l H; induction H as [|x l Hx _ IH]; [reflexivity|].
  cbn [filter]. now rewrite Hx.
Qed.

(** X5. On a collection with unique names, applying a well-formed marker
    file a second time changes nothing: the second application returns the
    collection the first one returned. *)
Theorem check_for_ltm_idempotent :
  forall (lines : list string) (props : Properties),
    names_unique props ->
    Forall (fun line => Py.split_colon_space line <> None) lines ->
    exists once : Properties,
      check_for_ltm (Some lines) (Some props) = Returned (Some once, true)
      /\ check_for_ltm (Some lines) (Some once) = Returned (Some once, true).
Proof.
  intros lines props Hnd Hwf.
  eexists. split; [now apply check_for_ltm_unique|].
  destruct (check_for_ltm_loop_unique lines props Hnd Hwf) as (_ & Hnd' & _).
  rewrite check_for_ltm_unique;
    [|now apply names_unique_filter, names_unique_filter | assumption].
  do 3 f_equal. unfold kept_in_ltm.
  set (nk := fun p : Property => negb (marker_key lines p)).
  rewrite !filter_app, !filter_filter.
  rewrite <- app_assoc. f_equal.
  - apply filter_ext. intro p.
    destruct (nk p), (other_name "GCE ID" p), (other_name "FSTESTCFG" p);
      reflexivity.
  - rewrite (filter_none _ (marker_props lines)); [reflexivity|].
    eapply Forall_impl; [|apply marker_props_keys]. intros p Hp. subst nk.
    cbn beta. rewrite Hp. cbn [negb]. now rewrite !andb_false_r.
Qed.

Lemma check_for_ltm_idempotent_witness :
  exists once : Properties,
    check_for_ltm (Some [marker_line "CMDLINE" "-c ext4 -g auto"])
      (Some [mkProperty "KERNEL" "5.0.0"; mkProperty "CMDLINE" "-c ext4"])
    = Returned (Some once, true)
    /\ check_for_ltm (Some [marker_line "CMDLINE" "-c ext4 -g auto"])
         (Some once)
       = Returned (Some once, true).
Proof.
  apply (check_for_ltm_idempotent
           [marker_line "CMDLINE" "-c ext4 -g auto"]
           [mkProperty "KERNEL" "5.0.0"; mkProperty "CMDLINE" "-c ext4"]).
  - unfold names_unique. cbn.
    repeat constructor; cbn; intuition discriminate.
  - repeat constructor; discriminate.
Defined.

(** ** The events of a run *)


Lemma snd_bind : forall {A B} (m : M A) (k : A -> M B),
  snd (bind m k)
  = match snd m with
    | Returned a => snd (k a)
    | Raised e => Raised e
    end.
Proof.
  intros A B [t [a|e]] k; cbn [snd]; [now rewrite bind_Returned | reflexivity].
Qed.




















(** ** Which runs return *)





(** A run that returns has gone through the trailer. *)
Lemma gen_results_summary_Returned_trailer :
  forall (struct_time : Type) (strptime : string -> option struct_time)
         (mktime : struct_time -> option Z)
         rd pe ofn mfn verbose first rest t n props ltm,
    record_files rd = first :: rest ->
    gen_results_summary struct_time strptime mktime rd pe ofn mfn verbose
    = (t, Returned n) ->
    check_for_ltm (ltm_run_stats rd) (child_Properties first)
    = Returned (props, ltm) ->
    snd (print_trailer (out_handle ofn) props) = Returned tt.
Proof.
  intros struct_time strptime mktime rd pe ofn mfn verbose first rest t n
    props ltm Hrec Erun Hltm.
  unfold gen_results_summary in Erun.
  rewrite Hrec in Erun. rewrite <- Hrec in Erun.
  apply (f_equal snd) in Erun. cbn [snd] in Erun.
  rewrite snd_bind in Erun.
  destruct ofn as [fn|]; cbn [snd ret out_handle] in *;
    rewrite snd_bind, Hltm in Erun; cbn [lift snd] in Erun;
    repeat (rewrite snd_bind in Erun;
            match type of Erun with
            | match ?o with _ => _ end = _ =>
                let E := fresh "E" in
                destruct o as [[]|] eqn:E; [|discriminate]
            | match ?o with _ => _ end = _ =>
                destruct o; [|discriminate]
            end);
    assumption.
Qed.



(** ** A marker file with a line without separator *)

Lemma check_for_ltm_loop_malformed : forall lines props,
  Exists (fun line => Py.split_colon_space line = None) lines ->
  exists e, check_for_ltm_loop lines props = Raised e
            /\ (props <> None -> e = ValueError).
Proof.
  induction lines as [|line rest IH]; intros props Hex;
    [inversion Hex|].
  cbn [check_for_ltm_loop].
  destruct (Py.split_colon_space line) as [[key value]|] eqn:Es.
  - inversion Hex as [? ? Hbad|? ? Hrest]; subst; [congruence|].
    destruct props as [l|].
    + cbn. destruct (IH (Some (app (remove_properties_loop (List.length l)
                                      key 0 l)
                                 [mkProperty key
                                    (Py.strip Py.dquote
                                       (Py.rstrip Py.nl value))])) Hrest)
        as (e & He & Hv).
      exists e. split; [exact He|]. intros _. apply Hv. discriminate.
    + cbn. exists AttributeError. split; [reflexivity | congruence].
  - exists ValueError. now split.
Qed.

(** X8. When a line of the marker file lacks the separator [': '], the run
    raises before it writes anything: the output file named by the caller
    has been opened, and so created or emptied, but nothing is written to
    it and the archive is not touched.  The exception is [ValueError] when
    the first record has a properties element. *)
Theorem gen_results_summary_malformed_marker :
  forall (struct_time : Type) (strptime : string -> option struct_time)
         (mktime : struct_time -> option Z)
         (results_dir : ResultsDir) (path_exists : string -> bool)
         (output_fn merge_fn : option string) (verbose : bool)
         (first : TestSuite) (rest : list TestSuite) (lines : list string),
    record_files results_dir = first :: rest ->
    ltm_run_stats results_dir = Some lines ->
    Exists (fun line => Py.split_colon_space line = None) lines ->
    exists e : exn,
      gen_results_summary struct_time strptime mktime
        results_dir path_exists output_fn merge_fn verbose
      = (opened output_fn, Raised e)
      /\ (child_Properties first <> None -> e = ValueError).
Proof.
  intros struct_time strptime mktime rd pe ofn mfn verbose first rest lines
    Hrec Hmarker Hbad.
  destruct (check_for_ltm_loop_malformed lines (child_Properties first) Hbad)
    as (e & He & Hv).
  exists e. split; [|exact Hv].
  unfold gen_results_summary. rewrite Hrec, Hmarker.
  unfold check_for_ltm. rewrite He.
  destruct ofn; reflexivity.
Qed.

Lemma gen_results_summary_malformed_marker_witness :
  exists e : exn,
    Utc.gen_results_summary
      (mkResultsDir [suite_4k] (Some [marker_line "CMDLINE" "-c ext4";
                                      "no separator here" ++ Py.NL]))
      no_path (Some "summary") None false
    = (opened (Some "summary"), Raised e)
    /\ (child_Properties suite_4k <> None -> e = ValueError).
Proof.
  apply (gen_results_summary_malformed_marker Utc.tm Utc.utc_strptime
           Utc.utc_mktime
           (mkResultsDir [suite_4k] (Some [marker_line "CMDLINE" "-c ext4";
                                           "no separator here" ++ Py.NL]))
           no_path (Some "summary") None false suite_4k []
           [marker_line "CMDLINE" "-c ext4"; "no separator here" ++ Py.NL]).
  - reflexivity.
  - reflexivity.
  - apply Exists_cons_tl, Exists_cons_hd. reflexivity.
Defined.

(** ** The totals *)

Lemma total_tests_from : forall l acc,
  fold_left (fun total testsuite =>
               match tests testsuite with
               | Some n => total + n
               | None => total
               end) l acc
  = acc + Zsum (map tests_or_zero l).
Proof.
  induction l as [|ts l IH]; intro acc; cbn [fold_left map Zsum fold_right].
  - lia.
  - rewrite IH. unfold tests_or_zero at 2. fold (Zsum (map tests_or_zero l)).
    destruct (tests ts); lia.
Qed.

Lemma total_tests_Zsum : forall l,
  total_tests l = Zsum (map tests_or_zero l).
Proof. intro l. unfold total_tests. now rewrite total_tests_from. Qed.

Lemma Zsum_cons : forall x l, Zsum (x :: l) = x + Zsum l.
Proof. reflexivity. Qed.

Lemma Zsum_Permutation : forall l l', Permutation l l' -> Zsum l = Zsum l'.
Proof.
  intros l l' H; induction H; rewrite ?Zsum_cons; lia.
Qed.

(** X9. [total_tests] does not depend on the order in which the records
    were found: rearranging the loaded suites leaves the total, and with it
    the choice of the verbose mode, unchanged. *)
Theorem total_tests_Permutation :
  forall l l' : list TestSuite,
    Permutation l l' ->
    total_tests l = total_tests l'
    /\ (total_tests l <? 30) = (total_tests l' <? 30).
Proof.
  intros l l' H.
  assert (E : total_tests l = total_tests l').
  { rewrite !total_tests_Zsum. apply Zsum_Permutation.
    now apply Permutation_map. }
  split; [exact E | now rewrite E].
Qed.

Lemma total_tests_Permutation_witness :
  total_tests [suite_4k; suite_bigalloc; suite_1k]
  = total_tests [suite_1k; suite_4k; suite_bigalloc]
  /\ (total_tests [suite_4k; suite_bigalloc; suite_1k] <? 30)
     = (total_tests [suite_1k; suite_4k; suite_bigalloc] <? 30).
Proof.
  apply (total_tests_Permutation [suite_4k; suite_bigalloc; suite_1k]
           [suite_1k; suite_4k; suite_bigalloc]).
  apply Permutation_sym.
  apply (Permutation_cons_append [suite_4k; suite_bigalloc] suite_1k).
Defined.





(** ** The width of the compact lists *)

Lemma len_append : forall a b, Py.len (a ++ b) = Py.len a + Py.len b.
Proof.
  intros a b. unfold Py.len. induction a as [|c a IH]; [reflexivity|].
  cbn [String.append String.length]. lia.
Qed.

Lemma within_one_line : forall limit s rest col,
  one_line s = true ->
  0 <= col ->
  col + Py.len s <= limit ->
  within limit col (s ++ rest) = within limit (col + Py.len s) rest.
Proof.
  intros limit s rest; induction s as [|c s IH]; intros col Hline Hcol Hfit.
  - cbn. now rewrite Z.add_0_r.
  - cbn [one_line] in Hline. apply andb_prop in Hline as [Hc Hline].
    apply negb_true_iff in Hc. cbn [String.append within]. rewrite Hc.
    unfold Py.len in *. cbn [String.length] in *.
    replace (col + 1 <=? limit) with true by (symmetry; apply Z.leb_le; lia).
    cbn [andb]. rewrite IH by (try assumption; lia). f_equal. lia.
Qed.

Lemma one_line_append : forall a b,
  one_line (a ++ b) = one_line a && one_line b.
Proof.
  intros a b; induction a as [|c a IH]; [reflexivity|].
  cbn [String.append one_line]. now rewrite IH, andb_assoc.
Qed.

Lemma within_break : forall col rest,
  within 76 col ((Py.NL ++ "    ") ++ rest) = within 76 4 rest.
Proof. reflexivity. Qed.

Lemma within_wrap_names : forall names pos col,
  Forall (fun n => one_line n = true /\ Py.len n <= 71) names ->
  0 <= col -> col <= pos -> col <= 76 ->
  within 76 col (content (app (wrap_names pos names) [Py.NL])) = true.
Proof.
  induction names as [|n names IH]; intros pos col Hall Hcol Hpos Hfit.
  - reflexivity.
  - inversion Hall as [|? ? [Hline Hlen] Hrest]; subst.
    assert (Hn : one_line (n ++ " ") = true).
    { rewrite one_line_append, Hline. reflexivity. }
    assert (Hl : Py.len (n ++ " ") = Py.len n + 1).
    { rewrite len_append. reflexivity. }
    assert (H0 : 0 <= Py.len n) by (unfold Py.len; lia).
    cbn [wrap_names]. destruct (pos + (Py.len n + 2) >? 76) eqn:Ewrap.
    + cbn [app content fold_right].
      rewrite within_break.
      rewrite within_one_line by (try assumption; lia).
      apply IH; try assumption; lia.
    + cbn [app content fold_right].
      assert (pos + (Py.len n + 2) <= 76).
      { destruct (Z.gtb_spec (pos + (Py.len n + 2)) 76); [discriminate | lia]. }
      rewrite within_one_line by (try assumption; lia).
      apply IH; try assumption; lia.
Qed.

Lemma written_map_EvWrite : forall h l, written (map (EvWrite h) l) = l.
Proof.
  intros h l; induction l as [|x l IH]; [reflexivity|].
  unfold written in *. cbn [map flat_map app]. now rewrite IH.
Qed.

Lemma print_tests_texts : forall h ts rt label,
  written (fst (print_tests h ts rt label))
  = wrapped_list label (listed_names (testcases ts) rt).
Proof.
  intros h ts rt label. unfold print_tests. rewrite print_tests_loop_spec.
  unfold wrapped_list.
  destruct (listed_names (testcases ts) rt) as [|n names]; [reflexivity|].
  mstep. cbn [fst]. rewrite written_app, written_map_EvWrite. reflexivity.
Qed.

(** X11. The early breaks of [print_tests] keep the list inside the page:
    with a one-line label of at most 72 characters and one-line test names
    of at most 71 characters, no character of the list is written past
    column 76. *)
Theorem print_tests_within_76 :
  forall (out_f : handle) (testsuite : TestSuite) (result_type : result_kind)
         (type_label : string),
    one_line type_label = true ->
    Py.len type_label <= 72 ->
    Forall (fun n => one_line n = true /\ Py.len n <= 71)
      (listed_names (testcases testsuite) result_type) ->
    within 76 0
      (content (written (fst (print_tests out_f testsuite result_type
                                type_label))))
    = true.
Proof.
  intros h ts rt label Hline Hlen Hnames. rewrite print_tests_texts.
  unfold wrapped_list.
  destruct (listed_names (testcases ts) rt) as [|n names] eqn:En;
    [reflexivity|].
  cbn [content fold_right].
  assert (H0 : 0 <= Py.len label) by (unfold Py.len; lia).
  assert (Hl : one_line ("  " ++ label ++ ": ") = true).
  { cbn. rewrite one_line_append, Hline. reflexivity. }
  assert (Hw : Py.len ("  " ++ label ++ ": ") = Py.len label + 4).
  { rewrite (len_append "  " (label ++ ": ")), (len_append label ": ").
    change (Py.len "  ") with 2. change (Py.len ": ") with 2. lia. }
  rewrite within_one_line by (try assumption; lia).
  rewrite Hw. apply within_wrap_names; try assumption; lia.
Qed.

Lemma print_tests_within_76_witness :
  within 76 0
    (content (written (fst (print_tests Stdout
                              (mkTestSuite
                                 (map (fun n => mkTestCase n Failure 1)
                                    ["generic/219"; "generic/235";
                                     "generic/422"; "generic/451";
                                     "generic/456"; "generic/475";
                                     "generic/484"])
                                 (Some 244) 0 7 0 880
                                 "2019-03-02T10:00:00" "xfstests-1" None)
                              Failure "Failures"))))
  = true.
Proof.
  apply (print_tests_within_76 Stdout _ Failure "Failures").
  - reflexivity.
  - vm_compute. discriminate.
  - repeat constructor; vm_compute; discriminate.
Defined.

(** ** The header and the verbose lines *)

Lemma print_property_line_lines : forall h props key,
  print_property_line h props key
  = (map (EvWrite h) (match props with
                      | Some l => single_value_line l key
                      | None => []
                      end), Returned tt).
Proof.
  intros h [l|] key; [apply print_property_line_spec | reflexivity].
Qed.

(** X12. [print_header] never fails: it writes one line for each of
    [TESTRUNID], [KERNEL], [CMDLINE], [CPUS], [MEM] and [MNTOPTS], in this
    order, whose first value is present and not empty, and always ends with
    an empty line; without a properties collection the empty line is all it
    writes. *)
Theorem print_header_lines :
  forall (out_f : handle) (props : option Properties),
    print_header out_f props
    = (map (EvWrite out_f) (header_lines props), Returned tt).
Proof.
  intros h props. unfold print_header, header_lines.
  rewrite !print_property_line_lines. mstep.
  cbn [flat_map]. rewrite !map_app, app_nil_r, <- !app_assoc. reflexivity.
Qed.

Lemma print_verbose_loop_lines : forall h tcs,
  print_verbose_loop h tcs
  = (map (EvWrite h) (map verbose_line tcs), Returned tt).
Proof.
  intros h tcs; induction tcs as [|tc tcs IH]; [reflexivity|].
  cbn [print_verbose_loop map]. rewrite IH. mstep. reflexivity.
Qed.

(** X13. In verbose mode [print_summary] writes, after the summary line,
    exactly one line for every test case of the suite, in suite order and
    whatever the counters of the suite say: the name in a field of 12, the
    status in a field of 8 and the whole seconds of the duration. *)
Theorem print_summary_verbose_lines :
  forall (out_f : handle) (ts : TestSuite) (n : Z),
    tests ts = Some n ->
    exists head : list string,
      print_summary out_f ts true
      = (map (EvWrite out_f)
           (app head (map verbose_line (testcases ts))), Returned tt)
      /\ content head = summary_line ts n.
Proof.
  intros h ts n Hn.
  pose (opt := fun (c : Z) (label : string) =>
                 if c >? 0 then [Py.fmt_d c ++ label] else []).
  exists ((config_name ts ++ ": " ++ Py.fmt_d n ++ " tests, ")
          :: app (opt (failures ts) " failures, ")
               (app (opt (errors ts) " errors, ")
                  (app (opt (skipped ts) " skipped, ")
                     [Py.fmt_d_float (time ts) ++ " seconds" ++ Py.NL]))).
  unfold print_summary. rewrite Hn, print_verbose_loop_lines.
  pose proof (fmt_s_config_name ts) as Hcfg.
  destruct (get_property (properties ts) "TESTCFG") as [v|] eqn:E1;
    rewrite Hcfg; clear Hcfg;
    unfold summary_line, clause, opt; rewrite <- ?Z.gtb_ltb;
    destruct (failures ts >? 0), (errors ts >? 0), (skipped ts >? 0);
    (split; [mstep; reflexivity|]);
    cbn [app content fold_right];
    repeat (rewrite ?append_assoc, ?append_nil_r; simpl);
    reflexivity.
Qed.

Lemma print_summary_verbose_lines_witness :
  exists head : list string,
    print_summary Stdout suite_4k true
    = (map (EvWrite Stdout)
         (app head (map verbose_line (testcases suite_4k))), Returned tt)
    /\ content head = summary_line suite_4k 3.
Proof.
  apply (print_summary_verbose_lines Stdout suite_4k 3). reflexivity.
Defined.

(** ** The tests the generator names *)

Lemma failed_tests_loop_names : forall tcs,
  map tc_name (yields (failed_tests_loop tcs)) = listed_names tcs Failure
  /\ ending (failed_tests_loop tcs) = Returned tt.
Proof.
  unfold listed_names. induction tcs as [|tc tcs [IHy IHe]]; [now split|].
  cbn [failed_tests_loop filter].
  destruct (result_kind_eqb (tc_result tc) Failure); cbn;
    [rewrite IHy|]; now split.
Qed.

(** X14. The [Failures] list of the compact mode names the tests that
    [failed_tests] yields, each once and in the same order: what
    [print_tests] writes for the failures is the label, the wrapped names of
    those tests and the closing newline. *)
Theorem print_tests_lists_failed_tests :
  forall (out_f : handle) (testsuite : TestSuite),
    written (fst (print_tests out_f testsuite Failure "Failures"))
    = wrapped_list "Failures"
        (map tc_name (yields (failed_tests testsuite)))
    /\ ending (failed_tests testsuite) = Returned tt.
Proof.
  intros h ts. unfold failed_tests.
  destruct (failed_tests_loop_names (testcases ts)) as [Hy He].
  rewrite Hy, print_tests_texts. now split.
Qed.

(** ** Suites with the same key *)

Section StableFacts.
Context {A K : Type} (key : A -> K) (ltb : K -> K -> bool)
  (is_k : K -> bool).

(** Keys that [is_k] selects are never smaller than one another. *)
Hypothesis is_k_not_lt :
  forall a b, is_k a = true -> is_k b = true -> ltb a b = false.

Lemma insert_filter_key : forall x l,
  filter (fun y => is_k (key y)) (Py.insert key ltb x l)
  = filter (fun y => is_k (key y)) (x :: l).
Proof.
  intros x l; induction l as [|y l IH]; [reflexivity|].
  cbn [Py.insert]. destruct (ltb (key y) (key x)) eqn:E; [|reflexivity].
  cbn [filter] in *. rewrite IH.
  destruct (is_k (key y)) eqn:Ey, (is_k (key x)) eqn:Ex; try reflexivity.
  rewrite (is_k_not_lt _ _ Ey Ex) in E. discriminate.
Qed.

Lemma sorted_filter_key : forall l,
  filter (fun y => is_k (key y)) (Py.sorted key ltb l)
  = filter (fun y => is_k (key y)) l.
Proof.
  induction l as [|x l IH]; [reflexivity|].
  cbn [Py.sorted fold_right]. fold (Py.sorted key ltb l).
  rewrite insert_filter_key. cbn [filter]. now rewrite IH.
Qed.

End StableFacts.

Lemma filter_map_snd : forall {A B} (f : B -> bool) (l : list (A * B)),
  filter f (map snd l) = map snd (filter (fun p => f (snd p)) l).
Proof.
  intros A B f l; induction l as [|p l IH]; [reflexivity|].
  cbn [map filter]. destruct (f (snd p)); cbn [map]; now rewrite IH.
Qed.

Lemma filter_ext_Forall : forall {A} (f g : A -> bool) (P : A -> Prop) l,
  Forall P l -> (forall x, P x -> f x = g x) -> filter f l = filter g l.
Proof.
  intros A f g P l Hall Hfg; induction Hall as [|x l Hx _ IH]; [reflexivity|].
  cbn [filter]. now rewrite (Hfg x Hx), IH.
Qed.

(** X15. The sort of the report is stable.  In LTM mode the suites of one
    hostname are reported in the order in which they were loaded, and
    without the marker file so are the suites whose timestamps parse to the
    same time. *)
Theorem sorted_reports_stable :
  forall (struct_time : Type) (strptime : string -> option struct_time)
         (mktime : struct_time -> option Z)
         (reports order : list TestSuite),
    (sorted_reports struct_time strptime mktime true reports = Returned order ->
     forall host : string,
       filter (fun ts => String.eqb (hostname ts) host) order
       = filter (fun ts => String.eqb (hostname ts) host) reports)
    /\ (sorted_reports struct_time strptime mktime false reports
        = Returned order ->
        forall k : Z,
          filter (timestamp_is struct_time strptime mktime k) order
          = filter (timestamp_is struct_time strptime mktime k) reports).
Proof.
  intros struct_time strptime mktime reports order. split; intros Hsort k.
  - unfold sorted_reports in Hsort. inversion Hsort; subst; clear Hsort.
    set (l := map (fun ts => (hostname ts, ts)) reports).
    assert (Hm : map snd l = reports).
    { subst l. rewrite map_map. apply map_id. }
    assert (Hf : Forall (fun p : string * TestSuite => fst p = hostname (snd p)) l).
    { subst l. apply Forall_forall. intros p Hp.
      apply in_map_iff in Hp as [ts [<- _]]. reflexivity. }
    rewrite <- Hm. rewrite !filter_map_snd. f_equal.
    assert (Hs : Forall (fun p : string * TestSuite => fst p = hostname (snd p))
                   (Py.sorted fst String.ltb l)).
    { rewrite Forall_forall in *. intros p Hp. apply Hf.
      eapply Permutation_in;
        [apply (sorted_Permutation fst String.ltb) | exact Hp]. }
    rewrite (filter_ext_Forall _ (fun p => String.eqb (fst p) k) _ _ Hs)
      by (intros p Hp; now rewrite Hp).
    rewrite (filter_ext_Forall (fun p => String.eqb (hostname (snd p)) k)
               (fun p => String.eqb (fst p) k) _ _ Hf)
      by (intros p Hp; now rewrite Hp).
    apply (sorted_filter_key fst String.ltb (fun a => String.eqb a k)).
    intros a b Ha Hb. apply String.eqb_eq in Ha, Hb. subst a b.
    unfold String.ltb.
    destruct (String.compare k k) eqn:E; try reflexivity.
    pose proof (String.compare_antisym k k) as Hanti. rewrite E in Hanti.
    discriminate.
  - unfold sorted_reports in Hsort.
    destruct (decorate struct_time strptime mktime reports) as [l|] eqn:Ed;
      [|discriminate].
    inversion Hsort; subst; clear Hsort.
    apply decorate_Returned in Ed as [Hm Hf].
    rewrite <- Hm. rewrite !filter_map_snd. f_equal.
    assert (Hs : Forall (fun p : Z * TestSuite =>
                           parse_timestamp struct_time strptime mktime
                             (timestamp (snd p)) = Returned (fst p))
                   (Py.sorted fst Z.ltb l)).
    { rewrite Forall_forall in *. intros p Hp. apply Hf.
      eapply Permutation_in;
        [apply (sorted_Permutation fst Z.ltb) | exact Hp]. }
    rewrite (filter_ext_Forall _ (fun p => Z.eqb (fst p) k) _ _ Hs)
      by (intros p Hp; unfold timestamp_is; now rewrite Hp).
    rewrite (filter_ext_Forall
               (fun p => timestamp_is struct_time strptime mktime k (snd p))
               (fun p => Z.eqb (fst p) k) _ _ Hf)
      by (intros p Hp; unfold timestamp_is; now rewrite Hp).
    apply (sorted_filter_key fst Z.ltb (fun a => Z.eqb a k)).
    intros a b Ha Hb. apply Z.eqb_eq in Ha, Hb. subst a b.
    apply Z.ltb_irrefl.
Qed.

Lemma sorted_reports_stable_witness :
  let shared :=
    mkTestSuite sample_cases (Some 3) 0 1 1 7
      "2019-03-02T10:00:00" "xfstests-ltm-a"
      (Some [mkProperty "TESTCFG" "ext4/encrypt"]) in
  filter (fun ts => String.eqb (hostname ts) "xfstests-ltm-a")
    [suite_4k; shared; suite_1k]
  = filter (fun ts => String.eqb (hostname ts) "xfstests-ltm-a")
      [suite_1k; suite_4k; shared]
  /\ filter (timestamp_is Utc.tm Utc.utc_strptime Utc.utc_mktime 1551520800)
       [suite_1k; suite_4k; shared]
     = filter (timestamp_is Utc.tm Utc.utc_strptime Utc.utc_mktime 1551520800)
         [suite_1k; suite_4k; shared].
Proof.
  intro shared. split.
  - apply (proj1 (sorted_reports_stable Utc.tm Utc.utc_strptime
                    Utc.utc_mktime [suite_1k; suite_4k; shared]
                    [suite_4k; shared; suite_1k])).
    reflexivity.
  - apply (proj2 (sorted_reports_stable Utc.tm Utc.utc_strptime
                    Utc.utc_mktime [suite_1k; suite_4k; shared]
                    [suite_1k; suite_4k; shared])).
    vm_compute. reflexivity.
Defined.

(** ** Reading a line of the marker file *)

Lemma split_colon_space_cons : forall c s,
  Py.split_colon_space (String c s)
  = let rec := match Py.split_colon_space s with
               | Some (k, v) => Some (String c k, v)
               | None => None
               end in
    if Ascii.eqb c ":"
    then match s with
         | String d s' => if Ascii.eqb d " " then Some (EmptyString, s') else rec
         | EmptyString => rec
         end
    else rec.
Proof.
  intros c s.
  destruct c as [[] [] [] [] [] [] [] []]; try reflexivity.
  destruct s as [|d s']; [reflexivity|].
  destruct d as [[] [] [] [] [] [] [] []]; reflexivity.
Qed.

Lemma split_colon_space_key : forall key rest,
  Py.split_colon_space key = None ->
  Py.split_colon_space (key ++ ": " ++ rest) = Some (key, rest).
Proof.
  induction key as [|c key IH]; intros rest Hkey; [reflexivity|].
  rewrite split_colon_space_cons in Hkey.
  change (String c key ++ ": " ++ rest) with (String c (key ++ ": " ++ rest)).
  rewrite split_colon_space_cons. cbn zeta in *.
  assert (Hrec : Py.split_colon_space key = None).
  { destruct (Ascii.eqb c ":"); [destruct key as [|d key']|];
      try (destruct (Ascii.eqb d " "); [discriminate|]);
      destruct (Py.split_colon_space _) as [[k v]|]; congruence. }
  rewrite (IH rest Hrec).
  destruct (Ascii.eqb c ":"); [|reflexivity].
  destruct key as [|d key']; [reflexivity|].
  cbn [String.append]. destruct (Ascii.eqb d " "); [discriminate | reflexivity].
Qed.

Lemma rstrip_app_same : forall c s,
  Py.rstrip c (s ++ String c EmptyString) = Py.rstrip c s.
Proof.
  intros c s; induction s as [|a s IH].
  - cbn. now rewrite Ascii.eqb_refl.
  - cbn [String.append Py.rstrip]. now rewrite IH.
Qed.

Lemma rstrip_app_other : forall c d s,
  Ascii.eqb d c = false ->
  Py.rstrip c (s ++ String d EmptyString) = s ++ String d EmptyString.
Proof.
  intros c d s Hd; induction s as [|a s IH].
  - cbn. now rewrite Hd.
  - cbn [String.append Py.rstrip]. rewrite IH.
    destruct s; reflexivity.
Qed.

Lemma lstrip_length : forall c s,
  (String.length (Py.lstrip c s) <= String.length s)%nat.
Proof.
  intros c s; induction s as [|a s IH]; [cbn; lia|].
  cbn [Py.lstrip]. destruct (Ascii.eqb a c); cbn [String.length]; lia.
Qed.

Lemma strip_quoted : forall value,
  unquoted value -> Py.strip Py.dquote (quoted value) = value.
Proof.
  intros value [Hl Hr]. unfold Py.strip, quoted.
  cbn [String.append Py.lstrip]. rewrite Ascii.eqb_refl.
  destruct value as [|a v].
  - cbn. reflexivity.
  - cbn [Py.lstrip] in Hl. cbn [String.append Py.lstrip].
    destruct (Ascii.eqb a Py.dquote) eqn:Ea.
    + exfalso. pose proof (lstrip_length Py.dquote v) as Hlen.
      rewrite Hl in Hlen. cbn [String.length] in Hlen. lia.
    + change (String a (v ++ String Py.dquote EmptyString))
        with (String a v ++ String Py.dquote EmptyString).
      now rewrite rstrip_app_same.
Qed.

Lemma parse_marker_line : forall key value,
  Py.split_colon_space key = None ->
  unquoted value ->
  parse_line (marker_line key value) = Some (key, value).
Proof.
  intros key value Hkey Hval. unfold parse_line, marker_line.
  rewrite split_colon_space_key by assumption.
  unfold Py.NL. rewrite rstrip_app_same.
  unfold quoted at 1.
  rewrite (rstrip_app_other Py.nl Py.dquote (String Py.dquote value))
    by reflexivity.
  fold (quoted value). now rewrite strip_quoted.
Qed.

(** X16. A line of the marker file written as [key: "value"] and a newline
    is read back as that key and that value, whenever the key holds no
    [': '] and the value has no double quote at either end: the loop of
    [check_for_ltm] removes the entries named [key], appends the entry
    [(key, value)] and goes on with the next line. *)
Theorem check_for_ltm_reads_marker_line :
  forall (key value : string) (rest : list string)
         (props : option Properties),
    Py.split_colon_space key = None ->
    unquoted value ->
    check_for_ltm_loop (marker_line key value :: rest) props
    = match add_property (remove_properties props key)
              (mkProperty key value) with
      | Raised e => Raised e
      | Returned props' => check_for_ltm_loop rest props'
      end.
Proof.
  intros key value rest props Hkey Hval.
  pose proof (parse_marker_line key value Hkey Hval) as Hparse.
  unfold parse_line in Hparse. cbn [check_for_ltm_loop].
  destruct (Py.split_colon_space (marker_line key value)) as [[k v]|];
    [|discriminate].
  inversion Hparse as [[Hk Hv]]. rewrite Hv. reflexivity.
Qed.

Lemma check_for_ltm_reads_marker_line_witness :
  check_for_ltm_loop [marker_line "CMDLINE" "-c ext4 -g auto"]
    (Some [mkProperty "KERNEL" "5.0.0"])
  = match add_property
            (remove_properties (Some [mkProperty "KERNEL" "5.0.0"]) "CMDLINE")
            (mkProperty "CMDLINE" "-c ext4 -g auto") with
    | Raised e => Raised e
    | Returned props' => check_for_ltm_loop [] props'
    end.
Proof.
  apply (check_for_ltm_reads_marker_line "CMDLINE" "-c ext4 -g auto" []
           (Some [mkProperty "KERNEL" "5.0.0"])).
  - reflexivity.
  - split; reflexivity.
Defined.

(** ** What the marker file leaves alone *)

Lemma filter_weaker : forall {A} (f g : A -> bool) l l',
  (forall x, f x = true -> g x = true) ->
  filter g l = filter g l' -> filter f l = filter f l'.
Proof.
  intros A f g l l' Hfg H.
  assert (E : forall m, filter f m = filter f (filter g m)).
  { induction m as [|x m IH]; [reflexivity|]. cbn [filter].
    destruct (g x) eqn:Eg; cbn [filter].
    - destruct (f x); now rewrite IH.
    - destruct (f x) eqn:Ef; [|exact IH].
      apply Hfg in Ef. congruence. }
  now rewrite (E l), (E l'), H.
Qed.

Lemma remove_properties_unrelated : forall (f : Property -> bool) l key,
  (forall p, f p = true -> other_name key p = true) ->
  exists l', remove_properties (Some l) key = Some l'
             /\ filter f l' = filter f l.
Proof.
  intros f l key Hf. eexists. split; [reflexivity|].
  apply (filter_weaker f (other_name key)); [exact Hf|].
  apply remove_properties_loop_keeps_other_names.
Qed.

Lemma check_for_ltm_loop_unrelated : forall (f : Property -> bool) lines,
  (forall p, f p = true -> marker_key lines p = false) ->
  forall props props',
    check_for_ltm_loop lines (Some props) = Returned (Some props') ->
    filter f props' = filter f props.
Proof.
  intros f lines; induction lines as [|line rest IH]; intros Hf props props' H.
  - cbn in H. now inversion H.
  - cbn [check_for_ltm_loop] in H.
    destruct (Py.split_colon_space line) as [[key value]|] eqn:Es;
      [|discriminate].
    assert (Hline : forall p, f p = true -> other_name key p = true).
    { intros p Hp. apply Hf in Hp. unfold marker_key in Hp.
      cbn [existsb] in Hp. apply orb_false_iff in Hp as [Hp _].
      unfold parse_line in Hp. rewrite Es in Hp. unfold other_name.
      now rewrite String.eqb_sym, Hp. }
    assert (Hrest : forall p, f p = true -> marker_key rest p = false).
    { intros p Hp. apply Hf in Hp. unfold marker_key in Hp.
      cbn [existsb] in Hp. now apply orb_false_iff in Hp as [_ Hp]. }
    destruct (remove_properties_unrelated f props key Hline) as (l' & Hl' & Hk).
    rewrite Hl' in H. cbn [add_property] in H.
    apply (IH Hrest) in H. rewrite H, filter_app, Hk. cbn [filter].
    destruct (f (mkProperty key (Py.strip Py.dquote (Py.rstrip Py.nl value))))
      eqn:Ef; [|apply app_nil_r].
    apply Hline in Ef. unfold other_name in Ef. cbn [name] in Ef.
    rewrite String.eqb_refl in Ef. discriminate.
Qed.

(** X17. Whatever the collection holds, repeated names included,
    [check_for_ltm] leaves the properties alone that the marker file does
    not name and LTM mode does not drop: when it returns, they are all
    still there, with their values and in their order. *)
Theorem check_for_ltm_keeps_unrelated :
  forall (lines : list string) (props props' : Properties) (ltm : bool),
    check_for_ltm (Some lines) (Some props) = Returned (Some props', ltm) ->
    filter (unrelated lines) props' = filter (unrelated lines) props.
Proof.
  intros lines props props' ltm H. unfold check_for_ltm in H.
  destruct (check_for_ltm_loop lines (Some props)) as [[q|]|] eqn:El;
    try discriminate.
  assert (Hq : filter (unrelated lines) q = filter (unrelated lines) props).
  { apply (check_for_ltm_loop_unrelated (unrelated lines) lines); [|exact El].
    intros p Hp. unfold unrelated in Hp. apply andb_prop in Hp as [Hp _].
    now apply negb_true_iff in Hp. }
  assert (Hdrop : forall key, dropped_in_ltm key = true ->
            forall p, unrelated lines p = true -> other_name key p = true).
  { intros key Hkey p Hp. unfold unrelated in Hp.
    apply andb_prop in Hp as [_ Hp]. apply negb_true_iff in Hp.
    unfold other_name. apply negb_true_iff.
    destruct (String.eqb_spec (name p) key) as [E|]; [|reflexivity].
    congruence. }
  destruct (remove_properties_unrelated (unrelated lines) q "GCE ID"
              (Hdrop "GCE ID" eq_refl)) as (q1 & Hq1 & Hk1).
  rewrite Hq1 in H.
  destruct (remove_properties_unrelated (unrelated lines) q1 "FSTESTCFG"
              (Hdrop "FSTESTCFG" eq_refl)) as (q2 & Hq2 & Hk2).
  rewrite Hq2 in H. inversion H; subst. congruence.
Qed.

Lemma check_for_ltm_keeps_unrelated_witness :
  let lines := [marker_line "FSTESTVER" "xfstests 2019"] in
  let props := [mkProperty "KERNEL" "5.0.0";
                mkProperty "FSTESTVER" "e2fsprogs v1.45";
                mkProperty "FSTESTVER" "fio 3.12";
                mkProperty "MEM" "2048"] in
  let props' := [mkProperty "KERNEL" "5.0.0";
                 mkProperty "FSTESTVER" "fio 3.12";
                 mkProperty "MEM" "2048";
                 mkProperty "FSTESTVER" "xfstests 2019"] in
  filter (unrelated lines) props' = filter (unrelated lines) props.
Proof.
  intros lines props props'.
  apply (check_for_ltm_keeps_unrelated lines props props' true).
  reflexivity.
Defined.

(** ** The layout of the report *)

Lemma print_header_spec : forall h props,
  print_header h props = (map (EvWrite h) (header_lines props), Returned tt).
Proof.
  intros h props. unfold print_header, header_lines.
  rewrite !print_property_line_lines. mstep.
  cbn [flat_map]. rewrite !map_app, app_nil_r, <- !app_assoc. reflexivity.
Qed.

Lemma print_trailer_texts : forall h props,
  written (fst (print_trailer h (Some props))) = trailer_lines props.
Proof.
  intros h props. unfold print_trailer, trailer_lines.
  rewrite !print_property_line_spec, print_properties_spec.
  mstep. cbn [fst]. rewrite <- !map_app.
  change (EvWrite h Py.NL :: map (EvWrite h) ?l)
    with (map (EvWrite h) (Py.NL :: l)).
  apply written_map_EvWrite.
Qed.

(** X18. The report of a run that returns is laid out as the header, the
    summaries of the suites in sorted order, the totals line and the
    trailer, and nothing else; header and trailer are made from the
    properties of the record that was loaded first, as [check_for_ltm]
    leaves them, wherever the sort puts that record. *)
Theorem gen_results_summary_layout :
  forall (struct_time : Type) (strptime : string -> option struct_time)
         (mktime : struct_time -> option Z)
         (results_dir : ResultsDir) (path_exists : string -> bool)
         (output_fn merge_fn : option string) (verbose : bool)
         (first : TestSuite) (rest : list TestSuite)
         (t : list event) (n : Z),
    record_files results_dir = first :: rest ->
    gen_results_summary struct_time strptime mktime
      results_dir path_exists output_fn merge_fn verbose = (t, Returned n) ->
    exists (props : Properties) (order : list TestSuite)
           (totals : Z * Z * Z * Z * Q),
      check_for_ltm (ltm_run_stats results_dir) (child_Properties first)
      = Returned (Some props, marker_present results_dir)
      /\ sorted_reports struct_time strptime mktime
           (marker_present results_dir) (record_files results_dir)
         = Returned order
      /\ sum_testsuites (record_files results_dir) = Returned totals
      /\ written t
         = app (header_lines (Some props))
             (app (flat_map
                     (summary_texts (out_handle output_fn)
                        (if total_tests (record_files results_dir) <? 30
                         then true else verbose)) order)
                (totals_line totals :: trailer_lines props)).
Proof.
  intros struct_time strptime mktime rd pe ofn mfn verbose first rest t n
    Hrec Hrun.
  destruct (gen_results_summary_Returned _ _ _ _ _ _ _ _ _ _ t n Hrec Hrun)
    as (props & ltm & order & totals & Hltm & Hsort & Hsum & Hw & _).
  pose proof (check_for_ltm_flag _ _ _ _ Hltm) as Hflag.
  fold (marker_present rd) in Hflag. subst ltm.
  pose proof (gen_results_summary_Returned_trailer _ _ _ _ _ _ _ _ _ _ _ _
                _ _ Hrec Hrun Hltm) as Htrail.
  destruct props as [p|]; [|discriminate].
  exists p, order, totals. repeat split; try assumption.
  rewrite Hw, print_header_spec, print_trailer_texts. cbn [fst].
  now rewrite written_map_EvWrite.
Qed.

Lemma gen_results_summary_layout_witness :
  exists (props : Properties) (order : list TestSuite)
         (totals : Z * Z * Z * Z * Q),
    check_for_ltm (ltm_run_stats large_dir) (child_Properties suite_4k)
    = Returned (Some props, marker_present large_dir)
    /\ sorted_reports Utc.tm Utc.utc_strptime Utc.utc_mktime
         (marker_present large_dir) (record_files large_dir)
       = Returned order
    /\ sum_testsuites (record_files large_dir) = Returned totals
    /\ written (fst (Utc.gen_results_summary large_dir no_path None None
                       false))
       = app (header_lines (Some props))
           (app (flat_map
                   (summary_texts (out_handle None)
                      (if total_tests (record_files large_dir) <? 30
                       then true else false)) order)
              (totals_line totals :: trailer_lines props)).
Proof.
  apply (gen_results_summary_layout Utc.tm Utc.utc_strptime Utc.utc_mktime
           large_dir no_path None None false suite_4k
           [suite_bigalloc; suite_1k]
           (fst (Utc.gen_results_summary large_dir no_path None None false))
           3).
  - reflexivity.
  - vm_compute. reflexivity.
Defined.

(** ** A timestamp that does not parse *)

Lemma decorate_Raised :
  forall (struct_time : Type) (strptime : string -> option struct_time)
         (mktime : struct_time -> option Z) reports,
    Exists (fun ts => forall k,
              parse_timestamp struct_time strptime mktime (timestamp ts)
              <> Returned k) reports ->
    exists e, decorate struct_time strptime mktime reports = Raised e.
Proof.
  intros struct_time strptime mktime reports Hex.
  induction Hex as [ts l Hbad | ts l _ [e IH]]; cbn [decorate].
  - destruct (parse_timestamp struct_time strptime mktime (timestamp ts))
      as [k|e]; [now destruct (Hbad k) | now exists e].
  - destruct (parse_timestamp struct_time strptime mktime (timestamp ts))
      as [k|e']; [rewrite IH; now exists e | now exists e'].
Qed.

(** X19. Without a marker file, a record whose timestamp does not parse
    makes the run raise after the header and before any summary: the output
    then holds the header lines and nothing else, and the archive has not
    been touched. *)
Theorem gen_results_summary_bad_timestamp :
  forall (struct_time : Type) (strptime : string -> option struct_time)
         (mktime : struct_time -> option Z)
         (results_dir : ResultsDir) (path_exists : string -> bool)
         (output_fn merge_fn : option string) (verbose : bool)
         (first : TestSuite) (rest : list TestSuite),
    record_files results_dir = first :: rest ->
    ltm_run_stats results_dir = None ->
    Exists (fun ts => forall k,
              parse_timestamp struct_time strptime mktime (timestamp ts)
              <> Returned k) (record_files results_dir) ->
    exists e : exn,
      gen_results_summary struct_time strptime mktime
        results_dir path_exists output_fn merge_fn verbose
      = (app (opened output_fn)
           (map (EvWrite (out_handle output_fn))
              (header_lines (child_Properties first))), Raised e).
Proof.
  intros struct_time strptime mktime rd pe ofn mfn verbose first rest
    Hrec Hmarker Hbad.
  destruct (decorate_Raised _ _ _ _ Hbad) as [e He].
  exists e. unfold gen_results_summary. rewrite Hrec. rewrite <- Hrec.
  rewrite Hmarker. cbn [check_for_ltm].
  destruct ofn as [fn|]; unfold lift; mstep;
    rewrite print_header_spec; mstep;
    unfold sorted_reports; rewrite He; cbn [bind opened out_handle app];
    now rewrite app_nil_r.
Qed.

Lemma gen_results_summary_bad_timestamp_witness :
  let broken :=
    mkTestSuite sample_cases (Some 3) 0 1 1 7
      "2019-03-02 10:00:00" "xfstests-ltm-e"
      (Some [mkProperty "TESTCFG" "ext4/encrypt"]) in
  exists e : exn,
    Utc.gen_results_summary (mkResultsDir [suite_4k; broken] None)
      no_path (Some "summary") (Some "results.xml") false
    = (app (opened (Some "summary"))
         (map (EvWrite (out_handle (Some "summary")))
            (header_lines (child_Properties suite_4k))), Raised e).
Proof.
  intro broken.
  apply (gen_results_summary_bad_timestamp Utc.tm Utc.utc_strptime
           Utc.utc_mktime (mkResultsDir [suite_4k; broken] None)
           no_path (Some "summary") (Some "results.xml") false
           suite_4k [broken]).
  - reflexivity.
  - reflexivity.
  - apply Exists_cons_tl, Exists_cons_hd. intros k H. vm_compute in H.
    discriminate.
Defined.

(** ** LTM mode and the clock *)

(** X20. With the marker file present the timestamps are never parsed: the
    run is the same whatever [strptime] and [mktime] do, so neither a
    malformed timestamp nor the time zone of the host can change or stop
    the report. *)
Theorem gen_results_summary_ltm_ignores_timestamps :
  forall (struct_time struct_time' : Type)
         (strptime : string -> option struct_time)
         (mktime : struct_time -> option Z)
         (strptime' : string -> option struct_time')
         (mktime' : struct_time' -> option Z)
         (results_dir : ResultsDir) (path_exists : string -> bool)
         (output_fn merge_fn : option string) (verbose : bool),
    ltm_run_stats results_dir <> None ->
    gen_results_summary struct_time strptime mktime
      results_dir path_exists output_fn merge_fn verbose
    = gen_results_summary struct_time' strptime' mktime'
        results_dir path_exists output_fn merge_fn verbose.
Proof.
  intros st st' sp mk sp' mk' rd pe ofn mfn verbose Hmarker.
  unfold gen_results_summary.
  destruct (record_files rd) as [|first rest]; [reflexivity|].
  destruct (check_for_ltm (ltm_run_stats rd) (child_Properties first))
    as [[props ltm]|e] eqn:Eltm.
  - apply check_for_ltm_flag in Eltm.
    destruct (ltm_run_stats rd); [|congruence]. subst ltm.
    reflexivity.
  - reflexivity.
Qed.

Lemma gen_results_summary_ltm_ignores_timestamps_witness :
  Utc.gen_results_summary large_dir no_path None None false
  = gen_results_summary unit (fun _ => None) (fun _ => None)
      large_dir no_path None None false.
Proof.
  apply (gen_results_summary_ltm_ignores_timestamps Utc.tm unit
           Utc.utc_strptime Utc.utc_mktime (fun _ => None) (fun _ => None)
           large_dir no_path None None false).
  discriminate.
Defined.
